(** * ANTA: device abstraction, command collection and test verdicts

    A shallow embedding of the parts of the ANTA code base that the
    specification speaks about:

    - [anta/device.py]: [AntaDevice], [AsyncEOSDevice] with [__eq__],
      [collect], [collect_commands] and [refresh];
    - [anta/tests/routing/bgp.py]: [_check_bgp_vrfs] and
      [VerifyBGPIPv4UnicastState.test];
    - [anta/tools/utils.py]: [get_failed_logs] and [custom_division].

    Python objects are mutable and shared by reference; the commands a
    device collects live in a store indexed by location, and the
    coroutines of [device.py] are functions in a state-and-exception
    monad over the device, the command store and the trace of calls
    made to the eAPI session. *)

From Stdlib Require Import ZArith String Ascii List Bool Lia.
From Stdlib Require Import QArith Qabs.
From Stdlib Require Import SpecFloat.
From stdpp Require Import base option list gmap strings pretty.
Import ListNotations.

Set Warnings "-register-all".

Open Scope Z_scope.
Open Scope string_scope.

(** ** Python values

    The structured output of eAPI is JSON: objects keyed by strings,
    arrays, strings, integers, booleans and null. *)

Inductive pyval : Type :=
| PyNone
| PyBool (b : bool)
| PyInt (z : Z)
| PyStr (s : string)
| PyList (l : list pyval)
| PyDict (d : list (string * pyval)).

(** A [dict] keeps insertion order, so it is an association list; the
    first binding of a key is the one a lookup sees. *)
Abbreviation dict := (list (string * pyval)).

Fixpoint dict_get {A} (d : list (string * A)) (k : string) : option A :=
  match d with
  | [] => None
  | (k', v) :: d' => if String.eqb k' k then Some v else dict_get d' k
  end.

(** [d[k] = v] on an existing key keeps the key's position, on a new key
    appends the binding. *)
Fixpoint dict_set {A} (d : list (string * A)) (k : string) (v : A)
  : list (string * A) :=
  match d with
  | [] => [(k, v)]
  | (k', v') :: d' =>
      if String.eqb k' k then (k', v) :: d' else (k', v') :: dict_set d' k v
  end.

Definition dict_keys {A} (d : list (string * A)) : list string := map fst d.

(** [d.get(k)]: the value, or [None]. *)
Definition py_get (d : dict) (k : string) : pyval :=
  match dict_get d k with
  | Some v => v
  | None => PyNone
  end.

(** Python's [==] on these values: [bool] is a subtype of [int] and
    compares numerically with it, lists compare element by element and
    dicts compare as finite maps, whatever their order. *)
Fixpoint py_eq (a b : pyval) {struct a} : bool :=
  match a, b with
  | PyNone, PyNone => true
  | PyBool x, PyBool y => Bool.eqb x y
  | PyBool x, PyInt y => Z.eqb (Z.b2z x) y
  | PyInt x, PyBool y => Z.eqb x (Z.b2z y)
  | PyInt x, PyInt y => Z.eqb x y
  | PyStr x, PyStr y => String.eqb x y
  | PyList xs, PyList ys =>
      (fix go (xs ys : list pyval) {struct xs} : bool :=
         match xs, ys with
         | [], [] => true
         | x :: xs', y :: ys' => py_eq x y && go xs' ys'
         | _, _ => false
         end) xs ys
  | PyDict xs, PyDict ys =>
      Nat.eqb (length xs) (length ys) &&
      (fix go (xs : dict) : bool :=
         match xs with
         | [] => true
         | (k, v) :: xs' =>
             match dict_get ys k with
             | Some w => py_eq v w
             | None => false
             end && go xs'
         end) xs
  | _, _ => false
  end.

(** [!=] is the negation of [==] for every built-in type. *)
Definition py_ne (a b : pyval) : bool := negb (py_eq a b).

(** [x is None]. *)
Definition is_none (v : pyval) : bool :=
  match v with PyNone => true | _ => false end.

(** Truth value testing, as [bool(x)], [if x] and [x and y] do it. *)
Definition py_truthy (v : pyval) : bool :=
  match v with
  | PyNone => false
  | PyBool b => b
  | PyInt z => negb (Z.eqb z 0)
  | PyStr s => negb (String.eqb s "")
  | PyList l => match l with [] => false | _ => true end
  | PyDict d => match d with [] => false | _ => true end
  end.

(** ** Exceptions

    The classes that the handlers of [device.py] tell apart, and the
    built-in ones that subscripting raises.  All of them derive from
    [Exception]. *)

Inductive exn : Type :=
| EapiCommandError (errmsg : string)
| HTTPError (msg : string)
| ConnectError (msg : string)
| IndexError (msg : string)
| KeyError (key : pyval)
| TypeError (msg : string)
| RuntimeError (msg : string)
| ZeroDivisionError (msg : string)
| OverflowError (msg : string)
| ValueError (msg : string)
| OtherException (cls msg : string).

Inductive outcome (A : Type) : Type :=
| Returned (a : A)
| Raised (e : exn).
Arguments Returned {A} a.
Arguments Raised {A} e.

Definition is_returned {A} (o : outcome A) : bool :=
  match o with Returned _ => true | Raised _ => false end.

Definition obind {A B} (o : outcome A) (f : A -> outcome B) : outcome B :=
  match o with
  | Returned a => f a
  | Raised e => Raised e
  end.

(** [str.__contains__]: [needle in s]. *)
Fixpoint string_prefix (p s : string) : bool :=
  match p, s with
  | EmptyString, _ => true
  | String a p', String b s' => Ascii.eqb a b && string_prefix p' s'
  | String _ _, EmptyString => false
  end.

Fixpoint string_contains (needle s : string) : bool :=
  string_prefix needle s ||
  match s with
  | EmptyString => false
  | String _ s' => string_contains needle s'
  end.

(** Python list indexing by an integer, negative indices counting from
    the end. *)
Definition list_index {A} (l : list A) (i : Z) : option A :=
  let n := Z.of_nat (length l) in
  if (0 <=? i)%Z then nth_error l (Z.to_nat i)
  else if (0 <=? n + i)%Z then nth_error l (Z.to_nat (n + i))
  else None.

Definition string_of_ascii (a : ascii) : string := String a EmptyString.

(** [container[key]]. *)
Definition py_getitem (container key : pyval) : outcome pyval :=
  match container, key with
  | PyDict d, PyStr k =>
      match dict_get d k with
      | Some v => Returned v
      | None => Raised (KeyError (PyStr k))
      end
  | PyDict _, PyList _ | PyDict _, PyDict _ =>
      Raised (TypeError "unhashable type")
  | PyDict _, _ => Raised (KeyError key)
  | PyList l, PyInt i =>
      match list_index l i with
      | Some v => Returned v
      | None => Raised (IndexError "list index out of range")
      end
  | PyList l, PyBool b =>
      match list_index l (Z.b2z b) with
      | Some v => Returned v
      | None => Raised (IndexError "list index out of range")
      end
  | PyList _, _ => Raised (TypeError "list indices must be integers or slices")
  | PyStr s, PyInt i =>
      match list_index (list_ascii_of_string s) i with
      | Some a => Returned (PyStr (string_of_ascii a))
      | None => Raised (IndexError "string index out of range")
      end
  | PyStr s, PyBool b =>
      match list_index (list_ascii_of_string s) (Z.b2z b) with
      | Some a => Returned (PyStr (string_of_ascii a))
      | None => Raised (IndexError "string index out of range")
      end
  | PyStr _, _ => Raised (TypeError "string indices must be integers")
  | _, _ => Raised (TypeError "object is not subscriptable")
  end.

(** [key in container], for a string [key]. *)
Definition py_contains (key : string) (container : pyval) : outcome bool :=
  match container with
  | PyDict d => Returned (match dict_get d key with Some _ => true | None => false end)
  | PyList l => Returned (existsb (py_eq (PyStr key)) l)
  | PyStr s => Returned (string_contains key s)
  | _ => Raised (TypeError "argument is not iterable")
  end.

(** ** Commands *)

(** The eAPI version a command asks for: ["latest"] or a number. *)
Inductive eapi_version : Type :=
| VersionLatest
| VersionNumber (n : Z).

(** Modelled from the spec: [anta.models.AntaCommand] is not among the
    sources.  The spec gives a Command the literal text to run, the
    requested output format, an optional protocol version and revision,
    and one slot each for the captured output and the captured failure;
    the fields carry the names under which [device.py] reads and writes
    them ([command.command], [command.ofmt], [command.version],
    [command.revision], [command.output], [command.failed]).  An unset
    slot holds [None]. *)
Record AntaCommand : Type := {
  command : string;
  version : eapi_version;
  revision : option Z;
  ofmt : string;
  output : pyval;
  failed : option exn;
}.

(** A command as a Test renders it: nothing collected yet. *)
Definition new_AntaCommand (text : string) (v : eapi_version)
    (rev : option Z) (fmt : string) : AntaCommand :=
  {| command := text; version := v; revision := rev; ofmt := fmt;
     output := PyNone; failed := None |}.

Definition set_output (v : pyval) (c : AntaCommand) : AntaCommand :=
  {| command := command c; version := version c; revision := revision c;
     ofmt := ofmt c; output := v; failed := failed c |}.

Definition set_failed (e : exn) (c : AntaCommand) : AntaCommand :=
  {| command := command c; version := version c; revision := revision c;
     ofmt := ofmt c; output := output c; failed := Some e |}.

(** The identity of a command, as the spec defines it. *)
Definition identity (c : AntaCommand)
  : string * string * eapi_version * option Z :=
  (command c, ofmt c, version c, revision c).

Definition output_set (c : AntaCommand) : bool := negb (is_none (output c)).
Definition failed_set (c : AntaCommand) : bool :=
  match failed c with Some _ => true | None => false end.

(** ** Devices *)

(** The fields of [aioeapi.Device] and of [SSHClientConnectionOptions]
    that the constructor fills in. *)
Record Session : Type := {
  host : string;
  port : Z;
  username : string;
  password : string;
  proto : string;
  timeout : option Q;
}.

Record SSHOptions : Type := {
  ssh_host : string;
  ssh_port : option Z;
  ssh_username : string;
  ssh_password : string;
  known_hosts_none : bool;
}.

Record AsyncEOSDevice : Type := {
  name : string;
  hw_model : pyval;
  tags : list string;
  is_online : bool;
  established : bool;
  enable_password : option string;
  session : Session;
  ssh_opts : SSHOptions;
}.

Definition DEFAULT_TAG : string := "all".

(** [AntaDevice.__init__]: the tag ["all"] is appended when missing. *)
Definition init_tags (tags : option (list string)) : list string :=
  let tags := match tags with Some t => t | None => [] end in
  if existsb (String.eqb DEFAULT_TAG) tags then tags else tags ++ [DEFAULT_TAG].

(** The session resolves an absent port from the protocol. *)
Definition default_port (proto : string) : Z :=
  if String.eqb proto "http" then 80 else 443.

Definition resolve_port (port : option Z) (proto : string) : Z :=
  match port with
  | Some p => if Z.eqb p 0 then default_port proto else p
  | None => default_port proto
  end.

Definition format_port (port : option Z) : string :=
  match port with
  | Some p => pretty p
  | None => "None"
  end.

(** [AsyncEOSDevice.__init__]. *)
Definition new_AsyncEOSDevice (host username password : string)
    (name : option string) (enable_password : option string)
    (port ssh_port : option Z) (tags : option (list string))
    (timeout : option Q) (insecure : bool) (proto : string)
  : AsyncEOSDevice :=
  let name :=
    match name with
    | Some n => n
    | None => host +:+ ":" +:+ format_port port
    end in
  {| name := name;
     hw_model := PyNone;
     tags := init_tags tags;
     is_online := false;
     established := false;
     enable_password := enable_password;
     session := {| host := host; port := resolve_port port proto;
                   username := username; password := password;
                   proto := proto; timeout := timeout |};
     ssh_opts := {| ssh_host := host; ssh_port := ssh_port;
                    ssh_username := username; ssh_password := password;
                    known_hosts_none := insecure |} |}.

Definition set_is_online (b : bool) (d : AsyncEOSDevice) : AsyncEOSDevice :=
  {| name := name d; hw_model := hw_model d; tags := tags d;
     is_online := b; established := established d;
     enable_password := enable_password d; session := session d;
     ssh_opts := ssh_opts d |}.

Definition set_hw_model (v : pyval) (d : AsyncEOSDevice) : AsyncEOSDevice :=
  {| name := name d; hw_model := v; tags := tags d;
     is_online := is_online d; established := established d;
     enable_password := enable_password d; session := session d;
     ssh_opts := ssh_opts d |}.

Definition set_established (b : bool) (d : AsyncEOSDevice) : AsyncEOSDevice :=
  {| name := name d; hw_model := hw_model d; tags := tags d;
     is_online := is_online d; established := b;
     enable_password := enable_password d; session := session d;
     ssh_opts := ssh_opts d |}.

(** *** Equality of devices

    The right operand of [==] is any Python object. *)
Inductive pyobject : Type :=
| ObjAsyncEOSDevice (d : AsyncEOSDevice)
| ObjValue (v : pyval).

(** [AsyncEOSDevice.__eq__]. *)
Definition device_eq (self : AsyncEOSDevice) (other : pyobject) : bool :=
  match other with
  | ObjAsyncEOSDevice other =>
      String.eqb (host (session self)) (host (session other))
      && Z.eqb (port (session self)) (port (session other))
  | ObjValue _ => false
  end.

(** ** The eAPI session and the run-time state

    [aioeapi.Device] is an injected collaborator.  A request is what
    [cli] receives; the session answers from the calls made so far, so a
    device may go away or change its answers during a run. *)

Record cli_cmd : Type := {
  cmd : string;
  input : option string;
  cmd_revision : option Z;
}.

Inductive cli_request : Type :=
| CliCommands (commands : list cli_cmd) (ofmt : string) (version : eapi_version)
| CliCommand (command : string).

Inductive event : Type :=
| CheckConnection
| Cli (request : cli_request).

Record eapi : Type := {
  check_connection : list event -> bool;
  cli : list event -> cli_request -> outcome pyval;
}.

(** References to command objects. *)
Abbreviation loc := nat.

Record state : Type := {
  dev : AsyncEOSDevice;
  store : gmap loc AntaCommand;
  trace : list event;
}.

Definition with_dev (d : AsyncEOSDevice) (s : state) : state :=
  {| dev := d; store := store s; trace := trace s |}.
Definition with_store (h : gmap loc AntaCommand) (s : state) : state :=
  {| dev := dev s; store := h; trace := trace s |}.
Definition with_trace (t : list event) (s : state) : state :=
  {| dev := dev s; store := store s; trace := t |}.

(** Computations that read and write the state and may raise.  A raise
    keeps the writes made before it. *)
Definition M (A : Type) : Type := state -> outcome A * state.

Definition ret {A} (a : A) : M A := fun s => (Returned a, s).
Definition raise {A} (e : exn) : M A := fun s => (Raised e, s).
Definition bind {A B} (m : M A) (f : A -> M B) : M B := fun s =>
  match m s with
  | (Returned a, s') => f a s'
  | (Raised e, s') => (Raised e, s')
  end.
Definition lift {A} (o : outcome A) : M A := fun s => (o, s).

(** [try: body  except ... as e: handler e]; a handler re-raises what no
    clause matches. *)
Definition try_except {A} (body : M A) (handler : exn -> M A) : M A := fun s =>
  match body s with
  | (Returned a, s') => (Returned a, s')
  | (Raised e, s') => handler e s'
  end.

Declare Scope m_scope.
Delimit Scope m_scope with M.
Notation "x <- m ;; k" := (bind m (fun x => k))
  (at level 100, m at next level, right associativity) : m_scope.
Notation "m ;;; k" := (bind m (fun _ => k))
  (at level 100, right associativity) : m_scope.
Local Open Scope m_scope.

Definition get_dev : M AsyncEOSDevice := fun s => (Returned (dev s), s).
Definition modify_dev (f : AsyncEOSDevice -> AsyncEOSDevice) : M unit :=
  fun s => (Returned tt, with_dev (f (dev s)) s).
Definition deref (l : loc) : M (option AntaCommand) :=
  fun s => (Returned (store s !! l), s).
Definition modify_command (l : loc) (f : AntaCommand -> AntaCommand) : M unit :=
  fun s => (Returned tt, with_store (alter f l (store s)) s).

Section Device.

Variable net : eapi.

(** [await self._session.check_connection()]. *)
Definition session_check_connection : M bool := fun s =>
  (Returned (check_connection net (trace s)),
   with_trace (trace s ++ [CheckConnection]) s).

(** [await self._session.cli(...)]. *)
Definition session_cli (r : cli_request) : M pyval := fun s =>
  (cli net (trace s) r, with_trace (trace s ++ [Cli r]) s).

(** The [enable] entry that leads every batch. *)
Definition enable_cmd (self : AsyncEOSDevice) : cli_cmd :=
  match enable_password self with
  | Some p => {| cmd := "enable"; input := Some p; cmd_revision := None |}
  | None => {| cmd := "enable"; input := None; cmd_revision := None |}
  end.

(** [if command.revision:] holds for a revision other than [None] and 0. *)
Definition revision_cmd (c : AntaCommand) : cli_cmd :=
  match revision c with
  | Some r =>
      if Z.eqb r 0
      then {| cmd := command c; input := None; cmd_revision := None |}
      else {| cmd := command c; input := None; cmd_revision := Some r |}
  | None => {| cmd := command c; input := None; cmd_revision := None |}
  end.

(** The request [collect] sends for a command. *)
Definition request_of (self : AsyncEOSDevice) (c : AntaCommand) : cli_request :=
  CliCommands ([enable_cmd self] ++ [revision_cmd c]) (ofmt c) (version c).

(** [command.ofmt in ["json", "text"]]. *)
Definition ofmt_json_or_text (fmt : string) : bool :=
  existsb (String.eqb fmt) ["json"; "text"].

(** The entry of the response that answers the command itself. *)
Definition select_output (fmt : string) (response : pyval) : outcome pyval :=
  if ofmt_json_or_text fmt then py_getitem response (PyInt 1)
  else Returned response.

(** [AsyncEOSDevice.collect].  The three [except] clauses log
    differently and all store the exception in [command.failed]. *)
Definition collect (command : loc) : M unit :=
  c <- deref command ;;
  match c with
  | None => ret tt
  | Some c =>
      try_except
        (self <- get_dev ;;
         response <- session_cli (request_of self c) ;;
         response <- lift (select_output (ofmt c) response) ;;
         modify_command command (set_output response))
        (fun e =>
           match e with
           | EapiCommandError _ => modify_command command (set_failed e)
           | HTTPError _ | ConnectError _ => modify_command command (set_failed e)
           | _ => modify_command command (set_failed e)
           end)
  end.

(** [AntaDevice.collect_commands]: one [collect] coroutine per element
    of [commands], gathered.  Every coroutine runs up to its call to the
    session before the next one starts, so the calls reach the session
    in the order of the list; the answers are written to the commands
    as they arrive, which for distinct command objects is the same in
    any order. *)
Fixpoint collect_commands (commands : list loc) : M unit :=
  match commands with
  | [] => ret tt
  | command :: rest => collect command ;;; collect_commands rest
  end.

Definition COMMAND : string := "show version".
Definition HW_MODEL_KEY : string := "modelName".

(** [AsyncEOSDevice.refresh].  The [try] has clauses for
    [EapiCommandError] and for [(HTTPError, ConnectError)] only, and
    its [else] block runs outside their protection. *)
Definition refresh : M unit :=
  online <- session_check_connection ;;
  modify_dev (set_is_online online) ;;;
  (if online then
     response <-
       try_except
         (response <- session_cli (CliCommand COMMAND) ;; ret (Some response))
         (fun e =>
            match e with
            | EapiCommandError _ => ret None
            | HTTPError _ | ConnectError _ => ret None
            | _ => raise e
            end) ;;
     match response with
     | Some response =>
         found <- lift (py_contains HW_MODEL_KEY response) ;;
         if found
         then model <- lift (py_getitem response (PyStr HW_MODEL_KEY)) ;;
              modify_dev (set_hw_model model)
         else ret tt
     | None => ret tt
     end
   else ret tt) ;;;
  self <- get_dev ;;
  modify_dev (set_established (is_online self && py_truthy (hw_model self))).

End Device.

(** ** Test results

    [anta.result_manager.models] is not among the sources; only the
    callers of [TestResult] are.  Its model follows sections 3, 4.3 and
    8 of the spec. *)

(** Modelled from the spec: the five states of a Result. *)
Inductive verdict : Type := unset | skipped | success | failure | error.

(** Modelled from the spec: a Result is one of the five states plus an
    ordered list of human-readable messages. *)
Record TestResult : Type := {
  result : verdict;
  messages : list string;
}.

(** Modelled from the spec: [unset] only before evaluation begins. *)
Definition new_TestResult : TestResult := {| result := unset; messages := [] |}.

(** The callers in [anta/tests] report with and without a message. *)
Definition add_message (message : option string) (l : list string) : list string :=
  match message with
  | Some m => l ++ [m]
  | None => l
  end.

(** Modelled from the spec: success is the default; calling it after a
    failure must not revert the verdict, and [skipped] and [error] are
    terminal for it. *)
Definition is_success (r : TestResult) : TestResult :=
  match result r with
  | unset | success => {| result := success; messages := messages r |}
  | skipped | failure | error => r
  end.

(** Modelled from the spec: failure may be reported several times, its
    messages accumulate, and a test that calls [is_failure] ends in
    [failure]. *)
Definition is_failure (message : option string) (r : TestResult) : TestResult :=
  {| result := failure; messages := add_message message (messages r) |}.

(** Modelled from the spec: evaluation logic that declines to run
    reports [skipped] with a message; failure is sticky once set. *)
Definition is_skipped (message : option string) (r : TestResult) : TestResult :=
  match result r with
  | failure | error =>
      {| result := result r; messages := add_message message (messages r) |}
  | unset | skipped | success =>
      {| result := skipped; messages := add_message message (messages r) |}
  end.

(** The reports that evaluation logic makes, and a run of them. *)
Inductive report : Type :=
| ReportSuccess
| ReportFailure (message : option string)
| ReportSkipped (message : option string).

Definition apply_report (r : TestResult) (c : report) : TestResult :=
  match c with
  | ReportSuccess => is_success r
  | ReportFailure m => is_failure m r
  | ReportSkipped m => is_skipped m r
  end.

Definition run_reports (calls : list report) (r : TestResult) : TestResult :=
  fold_left apply_report calls r.

Definition is_failure_call (c : report) : bool :=
  match c with ReportFailure _ => true | _ => false end.

Definition failure_count (calls : list report) : nat :=
  length (List.filter is_failure_call calls).

(** The messages passed to [is_failure], in call order. *)
Fixpoint failure_messages (calls : list report) : list string :=
  match calls with
  | [] => []
  | ReportFailure (Some m) :: rest => m :: failure_messages rest
  | _ :: rest => failure_messages rest
  end.

(** The messages passed to any report, in call order. *)
Fixpoint reported_messages (calls : list report) : list string :=
  match calls with
  | [] => []
  | ReportFailure (Some m) :: rest => m :: reported_messages rest
  | ReportSkipped (Some m) :: rest => m :: reported_messages rest
  | _ :: rest => reported_messages rest
  end.

Definition carries_message (c : report) : bool :=
  match c with
  | ReportFailure None | ReportSkipped None => false
  | _ => true
  end.

Definition is_skipped_call (c : report) : bool :=
  match c with ReportSkipped _ => true | _ => false end.

(** ** BGP tests *)

(** A test instance bound to a device: its rendered commands, collected,
    and its result. *)
Record AntaTest : Type := {
  instance_commands : list AntaCommand;
  test_result : TestResult;
}.

(** Modelled from the spec: [AntaCommand.json_output] is not among the
    sources.  Evaluation inspects the structured output of a collected
    command; an output that is not a JSON object is an error. *)
Definition json_output (c : AntaCommand) : outcome pyval :=
  match output c with
  | PyDict d => Returned (PyDict d)
  | _ => Raised (RuntimeError "output has not been collected as JSON")
  end.

(** [for x in v] where the body subscripts [v] with [x] and the result
    with a string, as both loops of [_check_bgp_vrfs] do.  Over a dict
    the loop visits its keys.  Over an empty list or string it does
    nothing.  Over a non-empty list or string the body cannot complete
    every iteration: an element that indexes the list is an integer and
    the element it selects is subscripted with a string. *)
Definition iter_keys (v : pyval) : outcome (list string) :=
  match v with
  | PyDict d => Returned (dict_keys d)
  | PyList [] => Returned []
  | PyList _ => Raised (TypeError "list indices must be integers or slices")
  | PyStr s =>
      if String.eqb s "" then Returned []
      else Raised (TypeError "string indices must be integers")
  | _ => Raised (TypeError "object is not iterable")
  end.

(** The condition of the [if]: [or] evaluates its operands from the
    left and stops at the first that holds. *)
Definition peer_has_issue (peer_data : pyval) : outcome bool :=
  obind (py_getitem peer_data (PyStr "peerState")) (fun st =>
  if py_ne st (PyStr "Established") then Returned true else
  obind (py_getitem peer_data (PyStr "inMsgQueue")) (fun inq =>
  if py_ne inq (PyInt 0) then Returned true else
  obind (py_getitem peer_data (PyStr "outMsgQueue")) (fun outq =>
  Returned (py_ne outq (PyInt 0))))).

(** The dict literal stored for a peer. *)
Definition peer_summary (peer_data : pyval) : outcome pyval :=
  obind (py_getitem peer_data (PyStr "peerState")) (fun st =>
  obind (py_getitem peer_data (PyStr "inMsgQueue")) (fun inq =>
  obind (py_getitem peer_data (PyStr "outMsgQueue")) (fun outq =>
  Returned (PyDict [("peerState", st); ("inMsgQueue", inq); ("outMsgQueue", outq)])))).

(** [state_issue.setdefault(vrf, {}).update({peer: summary})]. *)
Definition record_issue (state_issue : dict) (vrf peer : string) (summary : pyval)
  : dict :=
  let vrf_dict :=
    match dict_get state_issue vrf with
    | Some (PyDict d) => d
    | _ => []
    end in
  dict_set state_issue vrf (PyDict (dict_set vrf_dict peer summary)).

Fixpoint check_peers (peers : pyval) (vrf : string) (keys : list string)
    (state_issue : dict) : outcome dict :=
  match keys with
  | [] => Returned state_issue
  | peer :: rest =>
      obind (py_getitem peers (PyStr peer)) (fun peer_data =>
      obind (peer_has_issue peer_data) (fun issue =>
      if issue
      then obind (peer_summary peer_data) (fun summary =>
           check_peers peers vrf rest (record_issue state_issue vrf peer summary))
      else check_peers peers vrf rest state_issue))
  end.

Fixpoint check_vrfs (bgp_vrfs : pyval) (keys : list string) (state_issue : dict)
  : outcome dict :=
  match keys with
  | [] => Returned state_issue
  | vrf :: rest =>
      obind (py_getitem bgp_vrfs (PyStr vrf)) (fun vrf_data =>
      obind (py_getitem vrf_data (PyStr "peers")) (fun peers =>
      obind (iter_keys peers) (fun peer_keys =>
      obind (check_peers peers vrf peer_keys state_issue) (fun state_issue =>
      check_vrfs bgp_vrfs rest state_issue))))
  end.

(** [_check_bgp_vrfs]. *)
Definition _check_bgp_vrfs (bgp_vrfs : pyval) : outcome dict :=
  obind (iter_keys bgp_vrfs) (fun keys => check_vrfs bgp_vrfs keys []).

Section Formatting.

(** [str(x)], as an f-string renders a value. *)
Variable py_str : pyval -> string.

(** The body of [VerifyBGPIPv4UnicastState.test], run on the commands
    already collected. *)
Definition VerifyBGPIPv4UnicastState_test (self : AntaTest) : outcome TestResult :=
  obind (match instance_commands self with
         | c :: _ => json_output c
         | [] => Raised (IndexError "list index out of range")
         end) (fun command_output =>
  obind (py_getitem command_output (PyStr "vrfs")) (fun vrfs =>
  obind (_check_bgp_vrfs vrfs) (fun state_issue =>
  if negb (py_truthy (PyDict state_issue))
  then Returned (is_success (test_result self))
  else Returned (is_failure
         (Some ("Some IPv4 Unicast BGP Peer are not up: " +:+ py_str (PyDict state_issue)))
         (test_result self))))).

(** *** [anta/tools/utils.py] *)

Definition not_found_log (element : string) (expected_data : pyval) : string :=
  String "010" "Expected `" +:+ py_str expected_data +:+ "` as the " +:+ element
    +:+ ", but it was not found in the actual output.".

Definition instead_log (element : string) (expected_data actual_data : pyval)
  : string :=
  String "010" "Expected `" +:+ py_str expected_data +:+ "` as the " +:+ element
    +:+ ", but found `" +:+ py_str actual_data +:+ "` instead.".

(** The message that one item of [expected_output] contributes. *)
Definition item_log (actual_output : dict) (item : string * pyval) : option string :=
  let actual_data := py_get actual_output (fst item) in
  if py_eq actual_data (snd item) then None
  else if is_none actual_data then Some (not_found_log (fst item) (snd item))
  else Some (instead_log (fst item) (snd item) actual_data).

(** The loop of [get_failed_logs] over [expected_output.items()]. *)
Fixpoint failed_logs_loop (items actual_output : dict) (failed_logs : list string)
  : list string :=
  match items with
  | [] => failed_logs
  | (element, expected_data) :: rest =>
      let actual_data := py_get actual_output element in
      if py_eq actual_data expected_data
      then failed_logs_loop rest actual_output failed_logs
      else if is_none actual_data
      then failed_logs_loop rest actual_output
             (failed_logs ++ [not_found_log element expected_data])
      else if py_ne actual_data expected_data
      then failed_logs_loop rest actual_output
             (failed_logs ++ [instead_log element expected_data actual_data])
      else failed_logs_loop rest actual_output failed_logs
  end.

(** [get_failed_logs]. *)
Definition get_failed_logs (expected_output actual_output : dict) : string :=
  String.concat "" (failed_logs_loop expected_output actual_output []).

End Formatting.


(** ** Floating-point numbers

    A Python [float] is an IEEE 754 binary64 number: [spec_float] with a
    53-bit mantissa and the exponent of infinity at 1024.  True division
    of floats is the IEEE division, rounding to nearest even, except
    that a zero divisor raises. *)

Abbreviation float := spec_float.

Definition prec : Z := 53.
Definition emax : Z := 1024.

Definition float_is_zero (x : float) : bool :=
  match x with S754_zero _ => true | _ => false end.

(** [x / y]. *)
Definition float_truediv (x y : float) : outcome float :=
  if float_is_zero y then Raised (ZeroDivisionError "float division by zero")
  else Returned (SFdiv prec emax x y).

(** [x.is_integer()]: finite and without fractional part. *)
Definition float_is_integer (x : float) : bool :=
  match x with
  | S754_zero _ => true
  | S754_finite _ m e =>
      if (0 <=? e)%Z then true else Z.eqb (Z.pos m mod 2 ^ (- e)) 0
  | S754_infinity _ | S754_nan => false
  end.

(** [int(x)]: truncation towards zero, exact at every magnitude. *)
Definition float_to_int (x : float) : outcome Z :=
  match x with
  | S754_zero _ => Returned 0%Z
  | S754_finite s m e =>
      Returned (cond_Zopp s
                  (if (0 <=? e)%Z then Z.pos m * 2 ^ e else Z.pos m / 2 ^ (- e)))
  | S754_infinity _ => Raised (OverflowError "cannot convert float infinity to integer")
  | S754_nan => Raised (ValueError "cannot convert float NaN to integer")
  end.

(** The value of a finite float as a rational number. *)
Definition float_value (x : float) : option Q :=
  match x with
  | S754_zero _ => Some 0%Q
  | S754_finite s m e =>
      Some (if (0 <=? e)%Z
            then inject_Z (cond_Zopp s (Z.pos m * 2 ^ e))
            else Qmake (cond_Zopp s (Z.pos m)) (2 ^ Z.to_pos (- e))%positive)
  | S754_infinity _ | S754_nan => None
  end.

(** A float is integral when it is finite and its value is an integer. *)
Definition float_integral (x : float) : Prop :=
  exists (q : Q) (z : Z), float_value x = Some q /\ Qeq q (inject_Z z).

(** What [custom_division] returns: [int | float]. *)
Inductive number : Type :=
| NumInt (z : Z)
| NumFloat (f : float).

(** [custom_division]. *)
Definition custom_division (numerator denominator : float) : outcome number :=
  obind (float_truediv numerator denominator) (fun result =>
  if float_is_integer result
  then obind (float_to_int result) (fun z => Returned (NumInt z))
  else Returned (NumFloat result)).

(** Binary64 literals for the examples. *)
Definition float_of_Z (z : Z) : float := binary_normalize prec emax z 0 false.

(** ** Specification vocabulary and example data *)

(** The relation [a == b] between two devices. *)
Definition device_equal (a b : AsyncEOSDevice) : Prop :=
  device_eq a (ObjAsyncEOSDevice b) = true.

(** What [collect] leaves on a command, given the session's answer. *)
Definition collected (c : AntaCommand) (answer : outcome pyval) : AntaCommand :=
  match obind answer (select_output (ofmt c)) with
  | Returned v => set_output v c
  | Raised e => set_failed e c
  end.


(** A session that answers every batch with an empty result for
    [enable] and a version record for the command. *)
Definition answering_session : eapi :=
  {| check_connection := fun _ => true;
     cli := fun _ r =>
       match r with
       | CliCommands _ _ _ =>
           Returned (PyList [PyDict [];
                             PyDict [("modelName", PyStr "DCS-7280SR3-48YC8")]])
       | CliCommand _ =>
           Returned (PyDict [("modelName", PyStr "DCS-7280SR3-48YC8")])
       end |}.

Definition show_version : AntaCommand :=
  new_AntaCommand "show version" VersionLatest None "json".

Definition leaf1 : AsyncEOSDevice :=
  new_AsyncEOSDevice "leaf1.example.net" "admin" "admin" (Some "leaf1") None None
    (Some 22) (Some ["leaf"]) None false "https".

Definition one_command : state :=
  {| dev := leaf1; store := {[ 0%nat := show_version ]}; trace := [] |}.

(** The requests a batch stands for in a state: one per live reference,
    in batch order. *)
Fixpoint requests_of (s : state) (commands : list loc) : list event :=
  match commands with
  | [] => []
  | l :: rest =>
      match store s !! l with
      | Some c => Cli (request_of (dev s) c) :: requests_of s rest
      | None => requests_of s rest
      end
  end.

(** A session whose answer carries the number of calls made before. *)
Definition counting_session : eapi :=
  {| check_connection := fun _ => true;
     cli := fun history _ =>
       Returned (PyList [PyDict [];
                         PyDict [("calls", PyInt (Z.of_nat (length history)))]]) |}.

(** Two command objects with one identity, as two Tests render them. *)
Definition two_commands : state :=
  {| dev := leaf1;
     store := {[ 0%nat := show_version; 1%nat := show_version ]};
     trace := [] |}.

(** The answers to the identity command under which [refresh] runs to
    its end: the two handled families of exceptions, and a JSON
    object. *)
Definition refresh_handles (answer : outcome pyval) : bool :=
  match answer with
  | Returned (PyDict _) => true
  | Raised (EapiCommandError _) | Raised (HTTPError _) | Raised (ConnectError _) => true
  | _ => false
  end.

(** The model that [refresh] reads from an answer, if any. *)
Definition refreshed_model (old : pyval) (answer : outcome pyval) : pyval :=
  match answer with
  | Returned (PyDict d) =>
      match dict_get d HW_MODEL_KEY with
      | Some model => model
      | None => old
      end
  | _ => old
  end.

Definition offline_session : eapi :=
  {| check_connection := fun _ => false;
     cli := fun _ _ => Raised (ConnectError "All connection attempts failed") |}.

(** A device whose HTTP server answers with a body that is not JSON: the
    session fails to decode it. *)
Definition garbled_session : eapi :=
  {| check_connection := fun _ => true;
     cli := fun _ _ => Raised (OtherException "JSONDecodeError" "Expecting value") |}.

(** A device that answers the first probe and none after it. *)
Definition flapping_session : eapi :=
  {| check_connection := fun history => match history with [] => true | _ => false end;
     cli := cli answering_session |}.

(** The reports of a test that finds two violations, with a success
    reported in between. *)
Definition two_violations : list report :=
  [ReportSuccess; ReportFailure (Some "peer 10.1.0.1 is Idle"); ReportSuccess;
   ReportFailure (Some "peer 10.1.0.2 is Active"); ReportSuccess].

(** A peer entry that holds the three fields the test reads. *)
Definition peer_well_formed (peer_data : pyval) : bool :=
  match peer_data with
  | PyDict d =>
      match dict_get d "peerState", dict_get d "inMsgQueue", dict_get d "outMsgQueue" with
      | Some _, Some _, Some _ => true
      | _, _, _ => false
      end
  | _ => false
  end.

(** A peer that is established with both message queues empty. *)
Definition peer_established (peer_data : pyval) : bool :=
  match peer_data with
  | PyDict d =>
      match dict_get d "peerState", dict_get d "inMsgQueue", dict_get d "outMsgQueue" with
      | Some st, Some inq, Some outq =>
          py_eq st (PyStr "Established") && py_eq inq (PyInt 0) && py_eq outq (PyInt 0)
      | _, _, _ => false
      end
  | _ => false
  end.

(** The peers of a VRF entry. *)
Definition peers_of (vrf_data : pyval) : option dict :=
  match vrf_data with
  | PyDict d =>
      match dict_get d "peers" with
      | Some (PyDict peers) => Some peers
      | _ => None
      end
  | _ => None
  end.

(** Every peer of every VRF satisfies [P]. *)
Definition all_peers (P : pyval -> bool) (bgp_vrfs : dict) : bool :=
  forallb (fun vrf =>
             match peers_of (snd vrf) with
             | Some peers => forallb (fun peer => P (snd peer)) peers
             | None => false
             end) bgp_vrfs.

(** [state_issue[vrf][peer]] is [summary]. *)
Definition has_issue (state_issue : dict) (vrf peer : string) (summary : pyval) : Prop :=
  exists d, dict_get state_issue vrf = Some (PyDict d) /\ dict_get d peer = Some summary.

(** *** Rendering for the examples

    [repr] and [str] on values whose strings are printable and hold no
    quote and no backslash, so that [repr] wraps them in single quotes
    unchanged. *)

Definition join (sep : string) (l : list string) : string := String.concat sep l.

Fixpoint render_repr (v : pyval) : string :=
  match v with
  | PyNone => "None"
  | PyBool true => "True"
  | PyBool false => "False"
  | PyInt z => pretty z
  | PyStr s => "'" +:+ s +:+ "'"
  | PyList l => "[" +:+ join ", " (map render_repr l) +:+ "]"
  | PyDict d =>
      "{" +:+ join ", " (map (fun kv => "'" +:+ fst kv +:+ "': " +:+ render_repr (snd kv)) d)
        +:+ "}"
  end.

Definition render_str (v : pyval) : string :=
  match v with
  | PyStr s => s
  | _ => render_repr v
  end.

Definition bgp_peer (state : string) (inq outq : Z) : pyval :=
  PyDict [("description", PyStr "spine1"); ("peerState", PyStr state);
          ("inMsgQueue", PyInt inq); ("outMsgQueue", PyInt outq);
          ("asn", PyStr "65001")].

Definition bgp_summary (state : string) : dict :=
  [("vrfs",
    PyDict [("default",
             PyDict [("routerId", PyStr "10.0.0.1");
                     ("peers", PyDict [("10.1.0.1", bgp_peer state 0 0)])])])].

Definition bgp_command (state : string) : AntaCommand :=
  set_output (PyDict (bgp_summary state))
    (new_AntaCommand "show bgp ipv4 unicast summary vrf all" VersionLatest None "json").

Definition bgp_test (state : string) : AntaTest :=
  {| instance_commands := [bgp_command state]; test_result := new_TestResult |}.

(** The cases of [tests/units/tools/test_utils.py]. *)
Definition alice : dict :=
  [("id", PyInt 1); ("name", PyStr "Alice"); ("age", PyInt 30);
   ("email", PyStr "alice@example.com")].
Definition bob : dict :=
  [("id", PyInt 2); ("name", PyStr "Bob"); ("age", PyInt 35);
   ("email", PyStr "bob@example.com")].
Definition newline : string := String "010" "".

(** ** File copy *)

(** An operand of [asyncssh.scp]: a local path, or a [(conn, path)] pair
    naming a path on the device. *)
Inductive scp_path : Type :=
| LocalPath (path : string)
| RemotePath (path : string).

(** What [copy] does, in order: opening the connection, log records,
    the transfer, and leaving the [async with] block. *)
Inductive ssh_event : Type :=
| SshConnect (host : string) (port : option Z)
| SshInfo (message : string)
| SshCritical (message : string)
| SshScp (src : list scp_path) (dst : scp_path)
| SshExit.

(** [asyncssh], as far as [copy] uses it. *)
Record ssh : Type := {
  ssh_connect : string -> option Z -> outcome unit;
  ssh_scp : list scp_path -> scp_path -> outcome unit;
}.

(** [AntaDevice.copy]: not implemented by the base class. *)
Definition AntaDevice_copy (class_name : string) : outcome unit :=
  Raised (OtherException "NotImplementedError"
            ("copy() method has not been implemented in " +:+ class_name
               +:+ " definition")).

(** [AsyncEOSDevice.copy].  Nothing is caught: what [connect] or [scp]
    raises leaves the coroutine, through the exit of the [async with]
    block once it was entered. *)
Definition copy (net : ssh) (self : AsyncEOSDevice) (sources : list string)
    (destination direction : string) : outcome unit * list ssh_event :=
  let connect := SshConnect (ssh_host (ssh_opts self)) (ssh_port (ssh_opts self)) in
  match ssh_connect net (ssh_host (ssh_opts self)) (ssh_port (ssh_opts self)) with
  | Raised e => (Raised e, [connect])
  | Returned _ =>
      if String.eqb direction "from" then
        let src := map RemotePath sources in
        let dst := LocalPath destination in
        let logs :=
          map (fun file =>
                 SshInfo ("Copying '" +:+ file +:+ "' from device " +:+ name self
                            +:+ " to '" +:+ destination +:+ "' locally")) sources in
        (ssh_scp net src dst, ([connect] ++ logs ++ [SshScp src dst; SshExit])%list)
      else if String.eqb direction "to" then
        let src := map LocalPath sources in
        let dst := RemotePath destination in
        let logs :=
          map (fun file =>
                 SshInfo ("Copying '" +:+ file +:+ "' to device " +:+ name self
                            +:+ " to '" +:+ destination +:+ "' remotely")) sources in
        (ssh_scp net src dst, ([connect] ++ logs ++ [SshScp src dst; SshExit])%list)
      else
        (Returned tt,
         [connect;
          SshCritical ("'direction' argument to copy() fonction is invalid: "
                         +:+ direction);
          SshExit])
  end.

Definition is_scp (e : ssh_event) : bool :=
  match e with SshScp _ _ => true | _ => false end.

Definition is_remote (p : scp_path) : bool :=
  match p with RemotePath _ => true | LocalPath _ => false end.

(** ** The other BGP tests *)

(** [d.items()]. *)
Definition py_items (v : pyval) : outcome dict :=
  match v with
  | PyDict d => Returned d
  | _ => Raised (OtherException "AttributeError" "object has no attribute 'items'")
  end.

(** [[peer for peer, peer_dict in peers.items()
      if peer_dict["peerState"] != "Established"]]. *)
Fixpoint non_established_peers (items : dict) : outcome (list string) :=
  match items with
  | [] => Returned []
  | (peer, peer_dict) :: rest =>
      obind (py_getitem peer_dict (PyStr "peerState")) (fun st =>
      obind (non_established_peers rest) (fun others =>
      Returned (if py_ne st (PyStr "Established") then peer :: others else others)))
  end.

(** [self.instance_commands[0].json_output["vrfs"]["default"]["peers"]]. *)
Definition default_vrf_peers (self : AntaTest) : outcome pyval :=
  obind (match instance_commands self with
         | c :: _ => json_output c
         | [] => Raised (IndexError "list index out of range")
         end) (fun command_output =>
  obind (py_getitem command_output (PyStr "vrfs")) (fun bgp_vrfs =>
  obind (py_getitem bgp_vrfs (PyStr "default")) (fun vrf =>
  py_getitem vrf (PyStr "peers")))).

Section OtherTests.

Variable py_str : pyval -> string.

(** [VerifyBGPIPv6UnicastState.test]: the body of the IPv4 test, with
    its message. *)
Definition VerifyBGPIPv6UnicastState_test (self : AntaTest) : outcome TestResult :=
  obind (match instance_commands self with
         | c :: _ => json_output c
         | [] => Raised (IndexError "list index out of range")
         end) (fun command_output =>
  obind (py_getitem command_output (PyStr "vrfs")) (fun vrfs =>
  obind (_check_bgp_vrfs vrfs) (fun state_issue =>
  if negb (py_truthy (PyDict state_issue))
  then Returned (is_success (test_result self))
  else Returned (is_failure
         (Some ("Some IPv4 Unicast BGP Peer are not up: " +:+ py_str (PyDict state_issue)))
         (test_result self))))).

Definition not_established_log (family : string) (peers : list string) : string :=
  "The following " +:+ family +:+ " peers are not established: "
    +:+ py_str (PyList (map PyStr peers)).

Definition count_log (family : string) (number actual : Z) : string :=
  "Expecting " +:+ py_str (PyInt number) +:+ " BGP " +:+ family +:+ " peers and got "
    +:+ py_str (PyInt actual).

(** The body shared by [VerifyBGPEVPNState.test] and
    [VerifyBGPRTCState.test], which differ in the family their message
    names. *)
Definition peers_state_test (family : string) (self : AntaTest) : outcome TestResult :=
  obind (default_vrf_peers self) (fun peers =>
  obind (py_items peers) (fun items =>
  obind (non_established_peers items) (fun non_established =>
  match non_established with
  | [] => Returned (is_success (test_result self))
  | _ => Returned (is_failure (Some (not_established_log family non_established))
                     (test_result self))
  end))).

Definition VerifyBGPEVPNState_test : AntaTest -> outcome TestResult :=
  peers_state_test "EVPN".
Definition VerifyBGPRTCState_test : AntaTest -> outcome TestResult :=
  peers_state_test "RTC".

(** The body shared by [VerifyBGPEVPNCount.test] and
    [VerifyBGPRTCCount.test]; [number] is [self.inputs.number]. *)
Definition peers_count_test (family : string) (number : Z) (self : AntaTest)
  : outcome TestResult :=
  obind (default_vrf_peers self) (fun peers =>
  obind (py_items peers) (fun items =>
  obind (non_established_peers items) (fun non_established =>
  let actual := Z.of_nat (length items) in
  let none := match non_established with [] => true | _ => false end in
  if none && Z.eqb actual number
  then Returned (is_success (test_result self))
  else
    let r := is_failure None (test_result self) in
    let r := if negb (Z.eqb actual number)
             then is_failure (Some (count_log family number actual)) r else r in
    let r := if negb none
             then is_failure (Some (not_established_log family non_established)) r
             else r in
    Returned r))).

Definition VerifyBGPEVPNCount_test : Z -> AntaTest -> outcome TestResult :=
  peers_count_test "EVPN".
Definition VerifyBGPRTCCount_test : Z -> AntaTest -> outcome TestResult :=
  peers_count_test "RTC".

End OtherTests.

(** ** Further vocabulary and example data *)

(** The state of a peer entry, when it is an object that holds one. *)
Definition peer_state (peer_data : pyval) : option pyval :=
  match peer_data with
  | PyDict d => dict_get d "peerState"
  | _ => None
  end.

(** The names of the peers whose state is not Established, in order. *)
Definition not_established_names (peers : dict) : list string :=
  map fst
    (List.filter (fun peer =>
                    match peer_state (snd peer) with
                    | Some st => py_ne st (PyStr "Established")
                    | None => false
                    end) peers).

(** Every peer entry holds a state. *)
Definition all_have_state (peers : dict) : bool :=
  forallb (fun peer => match peer_state (snd peer) with Some _ => true | None => false end)
    peers.

(** A test bound to the summary of one address family in the default
    VRF. *)
Definition family_test (peers : dict) : AntaTest :=
  {| instance_commands :=
       [set_output
          (PyDict [("vrfs", PyDict [("default", PyDict [("peers", PyDict peers)])])])
          (new_AntaCommand "show bgp evpn summary" VersionLatest None "json")];
     test_result := new_TestResult |}.

(** No key occurs twice. *)
Fixpoint distinct (keys : list string) : bool :=
  match keys with
  | [] => true
  | k :: rest => negb (existsb (String.eqb k) rest) && distinct rest
  end.

(** A value as a JSON document gives it: every object in it has
    distinct keys. *)
Fixpoint well_formed (v : pyval) : bool :=
  match v with
  | PyList l => forallb well_formed l
  | PyDict d => distinct (dict_keys d) && forallb (fun kv => well_formed (snd kv)) d
  | _ => true
  end.




(** A session that is unreachable for every request. *)
Definition failing_session : eapi :=
  {| check_connection := fun _ => true;
     cli := fun _ _ => Raised (ConnectError "All connection attempts failed") |}.

(** A session whose answers do not depend on the calls made before. *)
Definition stable (net : eapi) : Prop :=
  forall h h' : list event,
    check_connection net h = check_connection net h'
    /\ forall r, cli net h r = cli net h' r.

(** An SSH layer on which everything succeeds. *)
Definition working_ssh : ssh :=
  {| ssh_connect := fun _ _ => Returned tt; ssh_scp := fun _ _ => Returned tt |}.

(** A session that is reachable and rejects the identity command. *)
Definition rejecting_session : eapi :=
  {| check_connection := fun _ => true;
     cli := fun _ _ => Raised (EapiCommandError "Invalid input") |}.

(** A command that failed in an earlier collection. *)
Definition failed_once : state :=
  {| dev := leaf1;
     store := {[ 0%nat := set_failed (ConnectError "timed out") show_version ]};
     trace := [] |}.

(** [self.established = bool(self.is_online and self.hw_model)]. *)
Definition establish (d : AsyncEOSDevice) : AsyncEOSDevice :=
  set_established (is_online d && py_truthy (hw_model d)) d.

(** What [refresh] returns and leaves on the device, from the report of
    the probe and the answer to the identity command. *)
Definition refreshed (online : bool) (answer : outcome pyval) (d : AsyncEOSDevice)
  : outcome unit * AsyncEOSDevice :=
  let d1 := set_is_online online d in
  if online then
    match answer with
    | Raised (EapiCommandError _) | Raised (HTTPError _) | Raised (ConnectError _) =>
        (Returned tt, establish d1)
    | Raised e => (Raised e, d1)
    | Returned response =>
        match py_contains HW_MODEL_KEY response with
        | Raised e => (Raised e, d1)
        | Returned false => (Returned tt, establish d1)
        | Returned true =>
            match py_getitem response (PyStr HW_MODEL_KEY) with
            | Raised e => (Raised e, d1)
            | Returned model => (Returned tt, establish (set_hw_model model d1))
            end
        end
    end
  else (Returned tt, establish d1).

(** The leaf after one successful refresh. *)
Definition refreshed_once : state := snd (refresh answering_session one_command).

(** [bgp_vrfs[vrf]["peers"][peer]]. *)
Definition peer_at (bgp_vrfs : pyval) (vrf peer : string) : outcome pyval :=
  obind (py_getitem bgp_vrfs (PyStr vrf)) (fun vrf_data =>
  obind (py_getitem vrf_data (PyStr "peers")) (fun peers =>
  py_getitem peers (PyStr peer))).

(** Every entry of [state_issue] is the summary of a peer of [bgp_vrfs]
    that has an issue, and every VRF it names holds an entry. *)
Definition reported_truly (bgp_vrfs : pyval) (state_issue : dict) : Prop :=
  (forall vrf peer summary,
      has_issue state_issue vrf peer summary ->
      exists peer_data,
        peer_at bgp_vrfs vrf peer = Returned peer_data
        /\ peer_has_issue peer_data = Returned true
        /\ peer_summary peer_data = Returned summary)
  /\ (forall vrf x, dict_get state_issue vrf = Some x ->
        exists d, x = PyDict d /\ d <> []).

(** A summary with one VRF whose second peer is idle and whose third has
    messages queued. *)
Definition three_peers : pyval :=
  PyDict [("default",
           PyDict [("peers",
                    PyDict [("10.1.0.1", bgp_peer "Established" 0 0);
                            ("10.1.0.2", bgp_peer "Idle" 0 0);
                            ("10.1.0.3", bgp_peer "Established" 0 4)])])].

(** A peer entry that lacks its output queue. *)
Definition incomplete_peer : pyval :=
  PyDict [("peerState", PyStr "Established"); ("inMsgQueue", PyInt 0)].

Definition three_peers_command : AntaCommand :=
  set_output (PyDict [("vrfs", three_peers)])
    (new_AntaCommand "show bgp ipv4 unicast summary vrf all" VersionLatest None "json").

(** The peers of [three_peers], as the EVPN and RTC summaries list
    them. *)
Definition evpn_peers : dict :=
  [("10.1.0.1", bgp_peer "Established" 0 0);
   ("10.1.0.2", bgp_peer "Idle" 0 0);
   ("10.1.0.3", bgp_peer "Established" 0 4)].


(** * Properties *)

(** ** Equality of devices *)

Lemma device_eq_spec (a b : AsyncEOSDevice) :
  device_eq a (ObjAsyncEOSDevice b) = true <->
  host (session a) = host (session b) /\ port (session a) = port (session b).
Proof.
  unfold device_eq. rewrite andb_true_iff, String.eqb_eq, Z.eqb_eq. tauto.
Qed.

(** C8: [a == b] holds exactly when host and eAPI port agree, whatever
    the other fields hold; a device never equals an object of another
    type; and on devices [==] is reflexive, symmetric and transitive. *)
Theorem device_eq_endpoint_equivalence :
  (forall a b : AsyncEOSDevice,
      device_eq a (ObjAsyncEOSDevice b) = true <->
      host (session a) = host (session b) /\ port (session a) = port (session b))
  /\ (forall (a : AsyncEOSDevice) (v : pyval), device_eq a (ObjValue v) = false)
  /\ (forall a : AsyncEOSDevice, device_equal a a)
  /\ (forall a b : AsyncEOSDevice, device_equal a b -> device_equal b a)
  /\ (forall a b c : AsyncEOSDevice,
         device_equal a b -> device_equal b c -> device_equal a c).
Proof.
  split; [exact device_eq_spec|].
  split; [reflexivity|].
  unfold device_equal.
  split; [|split].
  - intros a. apply device_eq_spec. split; reflexivity.
  - intros a b H. apply device_eq_spec in H as [H1 H2].
    apply device_eq_spec. split; congruence.
  - intros a b c Hab Hbc.
    apply device_eq_spec in Hab as [H1 H2].
    apply device_eq_spec in Hbc as [H3 H4].
    apply device_eq_spec. split; congruence.
Qed.

(** Two devices built for one endpoint under different names, tags and
    credentials are equal; a different port tells them apart. *)
Example device_eq_same_endpoint :
  device_eq
    (new_AsyncEOSDevice "leaf1" "admin" "pw" (Some "leaf1-a") None (Some 443)
       (Some 22) (Some ["dc1"]) None false "https")
    (ObjAsyncEOSDevice
       (new_AsyncEOSDevice "leaf1" "ops" "secret" None (Some "en") None
          (Some 2222) None None true "https")) = true
  /\ device_eq
    (new_AsyncEOSDevice "localhost" "admin" "pw" None None (Some 8443)
       (Some 22) None None false "https")
    (ObjAsyncEOSDevice
       (new_AsyncEOSDevice "localhost" "admin" "pw" None None (Some 8444)
          (Some 22) None None false "https")) = false.
Proof. split; reflexivity. Qed.

(** ** Collection *)

(** Unfolds the combinators of [M] down to functions on states. *)
Ltac unfold_m :=
  unfold bind, ret, raise, lift, try_except, get_dev, modify_dev, deref,
    modify_command, session_cli, session_check_connection.

Lemma collected_identity c answer : identity (collected c answer) = identity c.
Proof. unfold collected. destruct (obind _ _); reflexivity. Qed.

Lemma request_of_identity d c c' :
  identity c' = identity c -> request_of d c' = request_of d c.
Proof.
  unfold identity, request_of, revision_cmd. intros H.
  injection H as H1 H2 H3 H4. rewrite H1, H2, H3, H4. reflexivity.
Qed.

Lemma collect_dangling net l s :
  store s !! l = None -> collect net l s = (Returned tt, s).
Proof. intros H. unfold collect. unfold_m. rewrite H. reflexivity. Qed.

Lemma collect_spec net l s c :
  store s !! l = Some c ->
  let answer := cli net (trace s) (request_of (dev s) c) in
  exists s',
    collect net l s = (Returned tt, s')
    /\ dev s' = dev s
    /\ trace s' = (trace s ++ [Cli (request_of (dev s) c)])%list
    /\ store s' !! l = Some (collected c answer)
    /\ (forall l', l' <> l -> store s' !! l' = store s !! l').
Proof.
  intros H answer.
  unfold collect, collected. unfold_m. rewrite H.
  fold answer. cbn [dev store trace with_trace with_store].
  destruct answer as [response|e]; cbn [obind].
  - destruct (select_output (ofmt c) response) as [v|e]; cbn.
    + eexists; repeat split; cbn.
      * rewrite lookup_alter_eq, H. reflexivity.
      * intros l' Hl'. apply lookup_alter_ne. congruence.
    + eexists. split; [destruct e; reflexivity|].
      repeat split; cbn.
      * rewrite lookup_alter_eq, H. reflexivity.
      * intros l' Hl'. apply lookup_alter_ne. congruence.
  - eexists. split; [destruct e; reflexivity|].
    repeat split; cbn.
    + rewrite lookup_alter_eq, H. reflexivity.
    + intros l' Hl'. apply lookup_alter_ne. congruence.
Qed.



(** The three outcomes of one collection: an answer, an error of the
    command, and a response that lacks the command's entry. *)
Example collect_outcomes :
  (output <$> store (snd (collect answering_session 0 one_command)) !! 0%nat)
  = Some (PyDict [("modelName", PyStr "DCS-7280SR3-48YC8")])
  /\ (failed <$> store (snd (collect answering_session 0 one_command)) !! 0%nat)
     = Some None
  /\ (failed <$> store (snd (collect offline_session 0 one_command)) !! 0%nat)
     = Some (Some (ConnectError "All connection attempts failed"))
  /\ (output <$> store (snd (collect offline_session 0 one_command)) !! 0%nat)
     = Some PyNone
  /\ (let short := {| check_connection := fun _ => true;
                      cli := fun _ _ => Returned (PyList [PyDict []]) |} in
      fst (collect short 0 one_command) = Returned tt
      /\ (failed <$> store (snd (collect short 0 one_command)) !! 0%nat)
         = Some (Some (IndexError "list index out of range"))).
Proof. repeat split; vm_compute; reflexivity. Qed.

(** C7: [collect] leaves the device as it was, field for field, on
    every command and every answer of the session. *)
Theorem collect_preserves_device (net : eapi) (s : state) (command : loc) :
  let self := dev s in
  let self' := dev (snd (collect net command s)) in
  self' = self
  /\ name self' = name self
  /\ tags self' = tags self
  /\ hw_model self' = hw_model self
  /\ is_online self' = is_online self
  /\ established self' = established self
  /\ enable_password self' = enable_password self
  /\ session self' = session self
  /\ ssh_opts self' = ssh_opts self.
Proof.
  assert (H : dev (snd (collect net command s)) = dev s).
  { destruct (store s !! command) as [c|] eqn:Hc.
    - destruct (collect_spec net command s c Hc) as (s' & Hrun & Hdev & _).
      rewrite Hrun. exact Hdev.
    - rewrite (collect_dangling net command s Hc). reflexivity. }
  cbn zeta. rewrite H. repeat split.
Qed.

(** ** Batches *)

Lemma requests_of_stable s s' commands :
  dev s' = dev s ->
  (forall l c, store s !! l = Some c ->
     exists c', store s' !! l = Some c' /\ identity c' = identity c) ->
  (forall l, store s !! l = None -> store s' !! l = None) ->
  requests_of s' commands = requests_of s commands.
Proof.
  intros Hdev Hsome Hnone. induction commands as [|l rest IH]; [reflexivity|].
  cbn [requests_of]. destruct (store s !! l) as [c|] eqn:Hl.
  - destruct (Hsome l c Hl) as (c' & -> & Hid).
    rewrite IH, Hdev, (request_of_identity _ _ _ Hid). reflexivity.
  - rewrite (Hnone l Hl). exact IH.
Qed.

Lemma collect_commands_spec net commands : forall s,
  exists s',
    collect_commands net commands s = (Returned tt, s')
    /\ dev s' = dev s
    /\ trace s' = (trace s ++ requests_of s commands)%list
    /\ (forall l c, store s !! l = Some c ->
          exists c', store s' !! l = Some c' /\ identity c' = identity c)
    /\ (forall l, store s !! l = None -> store s' !! l = None).
Proof.
  induction commands as [|l rest IH]; intros s.
  - exists s. cbn. rewrite app_nil_r. eauto 10.
  - cbn [collect_commands requests_of]. unfold bind.
    destruct (store s !! l) as [c|] eqn:Hl.
    + destruct (collect_spec net l s c Hl) as (s1 & Hrun & Hdev & Htr & Hat & Hother).
      rewrite Hrun.
      assert (Hsome : forall l0 c0, store s !! l0 = Some c0 ->
                exists c', store s1 !! l0 = Some c' /\ identity c' = identity c0).
      { intros l0 c0 H0. destruct (decide (l0 = l)) as [->|Hne].
        - rewrite Hl in H0. injection H0 as <-.
          eexists. split; [exact Hat|apply collected_identity].
        - rewrite (Hother l0 Hne). eauto. }
      assert (Hnone : forall l0, store s !! l0 = None -> store s1 !! l0 = None).
      { intros l0 H0. destruct (decide (l0 = l)) as [->|Hne]; [congruence|].
        rewrite (Hother l0 Hne). exact H0. }
      destruct (IH s1) as (s' & Hrun' & Hdev' & Htr' & Hsome' & Hnone').
      exists s'. split; [exact Hrun'|]. split; [congruence|]. split.
      * rewrite Htr', Htr, (requests_of_stable s s1 rest Hdev Hsome Hnone).
        rewrite <- app_assoc. reflexivity.
      * split.
        -- intros l0 c0 H0. destruct (Hsome l0 c0 H0) as (c1 & H1 & Hid1).
           destruct (Hsome' l0 c1 H1) as (c2 & H2 & Hid2).
           exists c2. split; [exact H2|congruence].
        -- intros l0 H0. auto.
    + rewrite (collect_dangling net l s Hl). exact (IH s).
Qed.

Lemma requests_of_length s commands :
  Forall (fun l => is_Some (store s !! l)) commands ->
  length (requests_of s commands) = length commands.
Proof.
  induction 1 as [|l rest [c Hc] _ IH]; [reflexivity|].
  cbn [requests_of]. rewrite Hc. cbn. rewrite IH. reflexivity.
Qed.

Lemma collect_commands_app net xs ys : forall s,
  collect_commands net (xs ++ ys) s
  = collect_commands net ys (snd (collect_commands net xs s)).
Proof.
  induction xs as [|l xs IH]; intros s; [reflexivity|].
  cbn [app collect_commands]. unfold bind.
  destruct (store s !! l) as [c|] eqn:Hl.
  - destruct (collect_spec net l s c Hl) as (s1 & Hrun & _). rewrite Hrun.
    apply IH.
  - rewrite (collect_dangling net l s Hl). apply IH.
Qed.

Lemma collect_commands_untouched net commands l : forall s,
  ~ In l commands ->
  store (snd (collect_commands net commands s)) !! l = store s !! l.
Proof.
  induction commands as [|l0 rest IH]; intros s Hnotin; [reflexivity|].
  cbn [collect_commands]. unfold bind.
  assert (Hne : l <> l0) by (intros ->; apply Hnotin; left; reflexivity).
  assert (Hrest : ~ In l rest) by (intros H; apply Hnotin; right; exact H).
  destruct (store s !! l0) as [c|] eqn:Hl0.
  - destruct (collect_spec net l0 s c Hl0) as (s1 & Hrun & _ & _ & _ & Hother).
    rewrite Hrun, (IH s1 Hrest). apply Hother, Hne.
  - rewrite (collect_dangling net l0 s Hl0). apply IH, Hrest.
Qed.

Lemma collect_commands_outcome net s before l after c :
  ~ In l before -> ~ In l after ->
  store s !! l = Some c ->
  store (snd (collect_commands net (before ++ l :: after) s)) !! l
  = Some (collected c (cli net (trace s ++ requests_of s before)%list
                         (request_of (dev s) c))).
Proof.
  intros Hb Ha Hc. rewrite collect_commands_app.
  destruct (collect_commands_spec net before s) as (s1 & Hrun1 & Hdev1 & Htr1 & _).
  pose proof (collect_commands_untouched net before l s Hb) as Hl1.
  rewrite Hrun1 in *. cbn [snd] in *. rewrite Hc in Hl1.
  cbn [collect_commands]. unfold bind.
  destruct (collect_spec net l s1 c Hl1) as (s2 & Hrun2 & _ & _ & Hat & _).
  rewrite Hrun2, (collect_commands_untouched net after l s2 Ha), Hat, Htr1, Hdev1.
  reflexivity.
Qed.

(** C2, as the code has it: [collect_commands] returns without raising
    and sends one request per command of the batch, in batch order and
    without looking at identities; a batch of [n] commands costs [n]
    requests.  The device is left as it was, every command keeps its
    identity, and a command object that the batch holds once receives
    the session's answer to its own request. *)
Theorem collect_commands_one_request_each (net : eapi) (s : state)
    (commands : list loc) :
  exists s',
    collect_commands net commands s = (Returned tt, s')
    /\ dev s' = dev s
    /\ trace s' = (trace s ++ requests_of s commands)%list
    /\ (Forall (fun l => is_Some (store s !! l)) commands ->
        length (trace s') = (length (trace s) + length commands)%nat)
    /\ (forall l c, store s !! l = Some c ->
          exists c', store s' !! l = Some c' /\ identity c' = identity c)
    /\ (forall before l after c,
          commands = (before ++ l :: after)%list ->
          ~ In l before -> ~ In l after ->
          store s !! l = Some c ->
          store s' !! l
          = Some (collected c (cli net (trace s ++ requests_of s before)%list
                                 (request_of (dev s) c)))).
Proof.
  destruct (collect_commands_spec net commands s)
    as (s' & Hrun & Hdev & Htr & Hsome & _).
  exists s'. repeat (split; [assumption|]). split; [|split; [exact Hsome|]].
  - intros Hlive. rewrite Htr, length_app, (requests_of_length s commands Hlive).
    reflexivity.
  - intros before l after c -> Hb Ha Hc.
    pose proof (collect_commands_outcome net s before l after c Hb Ha Hc) as H.
    rewrite Hrun in H. exact H.
Qed.

(** C2 fails as stated: two commands of identical identity in one batch
    cause the same request to be sent twice, and each command object
    receives the answer to its own request. *)
Lemma collect_commands_repeats_request :
  store two_commands !! 0%nat = Some show_version
  /\ store two_commands !! 1%nat = Some show_version
  /\ trace (snd (collect_commands counting_session [0%nat; 1%nat] two_commands))
     = [Cli (request_of leaf1 show_version); Cli (request_of leaf1 show_version)]
  /\ output <$> (store (snd (collect_commands counting_session [0%nat; 1%nat] two_commands))
                 !! 0%nat)
     = Some (PyDict [("calls", PyInt 0)])
  /\ output <$> (store (snd (collect_commands counting_session [0%nat; 1%nat] two_commands))
                 !! 1%nat)
     = Some (PyDict [("calls", PyInt 1)]).
Proof. repeat split; vm_compute; reflexivity. Qed.

(** ** Refresh *)

Lemma refresh_offline net s :
  check_connection net (trace s) = false ->
  refresh net s =
    (Returned tt,
     {| dev := set_established false (set_is_online false (dev s));
        store := store s;
        trace := (trace s ++ [CheckConnection])%list |}).
Proof.
  intros H. unfold refresh. unfold_m. rewrite H. reflexivity.
Qed.

Lemma refresh_online net s :
  check_connection net (trace s) = true ->
  let answer := cli net (trace s ++ [CheckConnection])%list (CliCommand COMMAND) in
  trace (snd (refresh net s))
    = (trace s ++ [CheckConnection; Cli (CliCommand COMMAND)])%list
  /\ is_online (dev (snd (refresh net s))) = true
  /\ store (snd (refresh net s)) = store s
  /\ (fst (refresh net s) = Returned tt ->
      established (dev (snd (refresh net s)))
      = py_truthy (hw_model (dev (snd (refresh net s)))))
  /\ (refresh_handles answer = true ->
      fst (refresh net s) = Returned tt
      /\ hw_model (dev (snd (refresh net s)))
         = refreshed_model (hw_model (dev s)) answer).
Proof.
  intros H answer.
  unfold refresh. unfold_m. rewrite H. cbn [trace with_trace with_dev dev store].
  fold answer. rewrite <- app_assoc. cbn [app].
  destruct answer as [response|e].
  - destruct response as [| | | |l|d]; cbn;
      try (repeat split; (discriminate || reflexivity)).
    + destruct (string_contains HW_MODEL_KEY s0); cbn;
        repeat split; (discriminate || reflexivity).
    + destruct (existsb _ l); cbn; repeat split; (discriminate || reflexivity).
    + destruct (dict_get d HW_MODEL_KEY); cbn; repeat split; reflexivity.
  - destruct e; cbn; repeat split; (discriminate || reflexivity).
Qed.

(** C4, as the code has it: [refresh] probes the connection first and
    sends the identity command only when the probe reported the device
    reachable; [is_online] is the probe's report; it returns without
    raising when the device is unreachable, and when the identity
    command answers with a JSON object or fails with [EapiCommandError],
    [HTTPError] or [ConnectError]; and whenever it returns,
    [established] is [is_online and hw_model] as a truth value: true
    exactly when the device is online and [hw_model] is neither [None]
    nor empty. *)
Theorem refresh_establishes (net : eapi) (s : state) :
  let online := check_connection net (trace s) in
  let answer := cli net (trace s ++ [CheckConnection])%list (CliCommand COMMAND) in
  trace (snd (refresh net s))
    = (trace s ++ CheckConnection :: (if online then [Cli (CliCommand COMMAND)] else []))%list
  /\ is_online (dev (snd (refresh net s))) = online
  /\ (fst (refresh net s) = Returned tt ->
      established (dev (snd (refresh net s)))
      = is_online (dev (snd (refresh net s)))
        && py_truthy (hw_model (dev (snd (refresh net s)))))
  /\ (online = false \/ refresh_handles answer = true ->
      fst (refresh net s) = Returned tt).
Proof.
  intros online answer.
  destruct online eqn:Honline; subst online.
  - destruct (refresh_online net s Honline) as (Htr & Hon & _ & Hest & Hret).
    fold answer in Hret.
    split; [exact Htr|]. split; [exact Hon|]. split.
    + intros Hr. rewrite Hon. exact (Hest Hr).
    + intros [Hoff|Hh]; [discriminate|]. exact (proj1 (Hret Hh)).
  - rewrite (refresh_offline net s Honline). cbn. repeat split.
Qed.

(** C4 fails as stated: an exception of the session other than the
    handled ones leaves [refresh] through its boundary, before
    [established] is updated. *)
Lemma refresh_lets_exception_through :
  fst (refresh garbled_session one_command)
  = Raised (OtherException "JSONDecodeError" "Expecting value")
  /\ trace (snd (refresh garbled_session one_command))
     = [CheckConnection; Cli (CliCommand "show version")]
  /\ is_online (dev (snd (refresh garbled_session one_command))) = true.
Proof. repeat split. Qed.

(** An empty model name counts as no model. *)
Example refresh_empty_model :
  let net := {| check_connection := fun _ => true;
                cli := fun _ _ => Returned (PyDict [("modelName", PyStr "")]) |} in
  fst (refresh net one_command) = Returned tt
  /\ is_online (dev (snd (refresh net one_command))) = true
  /\ hw_model (dev (snd (refresh net one_command))) = PyStr ""
  /\ established (dev (snd (refresh net one_command))) = false.
Proof. repeat split. Qed.

Example refresh_reads_model :
  fst (refresh answering_session one_command) = Returned tt
  /\ hw_model (dev (snd (refresh answering_session one_command)))
     = PyStr "DCS-7280SR3-48YC8"
  /\ established (dev (snd (refresh answering_session one_command))) = true.
Proof. repeat split. Qed.

(** C5, as the code has it: when the probe reports the device
    unreachable, [refresh] returns with [is_online] and [established]
    false, sends nothing but the probe, and leaves [hw_model] as it was
    before the call: [None] on a device that never reported a model. *)
Theorem refresh_unreachable (net : eapi) (s : state) :
  check_connection net (trace s) = false ->
  fst (refresh net s) = Returned tt
  /\ is_online (dev (snd (refresh net s))) = false
  /\ established (dev (snd (refresh net s))) = false
  /\ hw_model (dev (snd (refresh net s))) = hw_model (dev s)
  /\ (hw_model (dev s) = PyNone -> hw_model (dev (snd (refresh net s))) = PyNone)
  /\ trace (snd (refresh net s)) = (trace s ++ [CheckConnection])%list.
Proof.
  intros H. rewrite (refresh_offline net s H). cbn. repeat split. auto.
Qed.

Lemma refresh_unreachable_witness :
  fst (refresh offline_session one_command) = Returned tt
  /\ is_online (dev (snd (refresh offline_session one_command))) = false
  /\ established (dev (snd (refresh offline_session one_command))) = false
  /\ hw_model (dev (snd (refresh offline_session one_command)))
     = hw_model (dev one_command)
  /\ (hw_model (dev one_command) = PyNone ->
      hw_model (dev (snd (refresh offline_session one_command))) = PyNone)
  /\ trace (snd (refresh offline_session one_command))
     = (trace one_command ++ [CheckConnection])%list.
Proof. apply (refresh_unreachable offline_session one_command). reflexivity. Defined.

(** C5 fails as stated: a device that reported its model once and is
    unreachable at the next refresh keeps the model. *)
Lemma refresh_keeps_stale_model :
  let s1 := snd (refresh flapping_session one_command) in
  let s2 := snd (refresh flapping_session s1) in
  hw_model (dev one_command) = PyNone
  /\ check_connection flapping_session (trace s1) = false
  /\ fst (refresh flapping_session s1) = Returned tt
  /\ is_online (dev s2) = false
  /\ established (dev s2) = false
  /\ hw_model (dev s2) = PyStr "DCS-7280SR3-48YC8".
Proof. repeat split. Qed.

(** ** Verdicts *)

Lemma apply_report_failure r c :
  result r = failure -> result (apply_report r c) = failure.
Proof.
  intros H. destruct c as [|m|m]; cbn; unfold is_success, is_skipped;
    try rewrite H; cbn; auto.
Qed.

Lemma apply_report_messages r c :
  messages (apply_report r c) = (messages r ++ reported_messages [c])%list.
Proof.
  destruct c as [|[m|]|[m|]]; cbn; unfold is_success, is_skipped;
    destruct (result r); cbn; rewrite ?app_nil_r; reflexivity.
Qed.

Lemma reported_messages_cons c calls :
  reported_messages (c :: calls)
  = (reported_messages [c] ++ reported_messages calls)%list.
Proof. destruct c as [|[m|]|[m|]]; reflexivity. Qed.

Lemma run_reports_messages calls : forall r,
  messages (run_reports calls r) = (messages r ++ reported_messages calls)%list.
Proof.
  induction calls as [|c calls IH]; intros r.
  - cbn. rewrite app_nil_r. reflexivity.
  - cbn [run_reports fold_left]. fold (run_reports calls (apply_report r c)).
    rewrite IH, apply_report_messages, (reported_messages_cons c calls).
    rewrite app_assoc. reflexivity.
Qed.

Lemma run_reports_failure calls : forall r,
  result r = failure \/ (1 <= failure_count calls)%nat ->
  result (run_reports calls r) = failure.
Proof.
  induction calls as [|c calls IH]; intros r H.
  - destruct H as [H|H]; [exact H|]. cbn in H. lia.
  - cbn [run_reports fold_left]. fold (run_reports calls (apply_report r c)).
    apply IH. destruct H as [H|H].
    + left. apply apply_report_failure, H.
    + destruct c as [|m|m]; [right|left|right]; try exact H; reflexivity.
Qed.

Lemma failure_messages_sublist calls :
  sublist (failure_messages calls) (reported_messages calls).
Proof.
  induction calls as [|c calls IH]; [constructor|].
  destruct c as [|[m|]|[m|]]; cbn; try exact IH.
  - apply sublist_skip, IH.
  - apply sublist_cons, IH.
Qed.

Lemma failure_messages_length calls :
  forallb carries_message calls = true ->
  length (failure_messages calls) = failure_count calls.
Proof.
  unfold failure_count.
  induction calls as [|c calls IH]; [reflexivity|].
  cbn [forallb]. rewrite andb_true_iff. intros [Hc Hrest].
  destruct c as [|[m|]|[m|]]; cbn in *; try discriminate; auto.
Qed.

Lemma failure_messages_all calls :
  existsb is_skipped_call calls = false ->
  reported_messages calls = failure_messages calls.
Proof.
  induction calls as [|c calls IH]; [reflexivity|].
  cbn [existsb]. rewrite orb_false_iff. intros [Hc Hrest].
  destruct c as [|[m|]|[m|]]; cbn in *; try discriminate; auto.
  f_equal. auto.
Qed.

(** C3: a run of reports that calls [is_failure] at least once ends in
    [failure], whatever is interleaved.  The message list is the one
    before the run followed by every message reported, in call order,
    so the failure messages appear in it in call order; they are all of
    what is added when nothing was reported as skipped, and they number
    as many as the calls to [is_failure] when every call carried one.
    [is_success] on a failure changes nothing. *)
Theorem failure_is_sticky (calls : list report) (r : TestResult) :
  (1 <= failure_count calls)%nat ->
  result (run_reports calls r) = failure
  /\ messages (run_reports calls r) = (messages r ++ reported_messages calls)%list
  /\ sublist (failure_messages calls) (messages (run_reports calls r))
  /\ (existsb is_skipped_call calls = false ->
      messages (run_reports calls r) = (messages r ++ failure_messages calls)%list)
  /\ (forallb carries_message calls = true ->
      length (failure_messages calls) = failure_count calls)
  /\ (forall r', result r' = failure -> is_success r' = r').
Proof.
  intros H.
  split; [apply run_reports_failure; right; exact H|].
  split; [apply run_reports_messages|].
  split.
  { rewrite run_reports_messages. apply sublist_inserts_l, failure_messages_sublist. }
  split.
  { intros Hs. rewrite run_reports_messages, (failure_messages_all calls Hs).
    reflexivity. }
  split; [apply failure_messages_length|].
  intros r' Hr'. unfold is_success. rewrite Hr'. reflexivity.
Qed.

Lemma failure_is_sticky_witness :
  result (run_reports two_violations new_TestResult) = failure
  /\ messages (run_reports two_violations new_TestResult)
     = (messages new_TestResult ++ reported_messages two_violations)%list
  /\ sublist (failure_messages two_violations)
       (messages (run_reports two_violations new_TestResult))
  /\ (existsb is_skipped_call two_violations = false ->
      messages (run_reports two_violations new_TestResult)
      = (messages new_TestResult ++ failure_messages two_violations)%list)
  /\ (forallb carries_message two_violations = true ->
      length (failure_messages two_violations) = failure_count two_violations)
  /\ (forall r', result r' = failure -> is_success r' = r').
Proof. apply (failure_is_sticky two_violations new_TestResult). vm_compute. lia. Defined.

Example two_violations_run :
  run_reports two_violations new_TestResult
  = {| result := failure;
       messages := ["peer 10.1.0.1 is Idle"; "peer 10.1.0.2 is Active"] |}.
Proof. reflexivity. Qed.

(** ** Dictionaries *)

Lemma dict_get_set_eq {A} (d : list (string * A)) k v :
  dict_get (dict_set d k v) k = Some v.
Proof.
  induction d as [|[k' v'] d IH]; cbn.
  - rewrite String.eqb_refl. reflexivity.
  - destruct (String.eqb k' k) eqn:E; cbn; rewrite E; [reflexivity|exact IH].
Qed.

Lemma dict_get_set_ne {A} (d : list (string * A)) k k' v :
  k' <> k -> dict_get (dict_set d k v) k' = dict_get d k'.
Proof.
  intros Hne. induction d as [|[k0 v0] d IH]; cbn.
  - destruct (String.eqb k k') eqn:E; [|reflexivity].
    apply String.eqb_eq in E. congruence.
  - destruct (String.eqb k0 k) eqn:E; cbn.
    + apply String.eqb_eq in E. subst k0.
      destruct (String.eqb k k') eqn:E'; [|reflexivity].
      apply String.eqb_eq in E'. congruence.
    + destruct (String.eqb k0 k'); [reflexivity|exact IH].
Qed.

Lemma dict_get_In {A} (d : list (string * A)) k v :
  dict_get d k = Some v -> In (k, v) d.
Proof.
  induction d as [|[k' v'] d IH]; cbn; [discriminate|].
  destruct (String.eqb k' k) eqn:E.
  - apply String.eqb_eq in E. intros [= <-]. left. congruence.
  - intros H. right. exact (IH H).
Qed.

Lemma dict_get_key {A} (d : list (string * A)) k :
  In k (dict_keys d) -> exists v, dict_get d k = Some v.
Proof.
  unfold dict_keys. induction d as [|[k' v'] d IH]; cbn; [tauto|].
  intros [->|H].
  - rewrite String.eqb_refl. eauto.
  - destruct (String.eqb k' k); eauto.
Qed.

(** ** The BGP state test *)

Lemma record_issue_here si vrf peer summary :
  has_issue (record_issue si vrf peer summary) vrf peer summary.
Proof.
  unfold has_issue, record_issue. eexists. split.
  - apply dict_get_set_eq.
  - apply dict_get_set_eq.
Qed.

Lemma record_issue_other si vrf peer summary vrf0 peer0 summary0 :
  has_issue si vrf0 peer0 summary0 ->
  (vrf0 = vrf -> peer0 = peer -> summary = summary0) ->
  has_issue (record_issue si vrf peer summary) vrf0 peer0 summary0.
Proof.
  intros (d & Hd & Hp) Hsame. unfold has_issue, record_issue.
  destruct (String.eqb vrf0 vrf) eqn:Ev.
  - apply String.eqb_eq in Ev. subst vrf0. rewrite Hd.
    eexists. split; [apply dict_get_set_eq|].
    destruct (String.eqb peer0 peer) eqn:Ep.
    + apply String.eqb_eq in Ep. subst peer0.
      rewrite dict_get_set_eq. f_equal. auto.
    + apply String.eqb_neq in Ep. rewrite dict_get_set_ne by exact Ep. exact Hp.
  - apply String.eqb_neq in Ev. exists d. split; [|exact Hp].
    rewrite dict_get_set_ne by exact Ev. exact Hd.
Qed.

Lemma peer_established_no_issue pd :
  peer_established pd = true -> peer_has_issue pd = Returned false.
Proof.
  unfold peer_established, peer_has_issue. destruct pd as [| | | | |d]; try discriminate.
  cbn [py_getitem].
  destruct (dict_get d "peerState") as [st|]; [|discriminate].
  destruct (dict_get d "inMsgQueue") as [inq|]; [|discriminate].
  destruct (dict_get d "outMsgQueue") as [outq|]; [|discriminate].
  rewrite !andb_true_iff. intros [[H1 H2] H3]. cbn [obind]. unfold py_ne.
  rewrite H1, H2, H3. reflexivity.
Qed.

Lemma peer_well_formed_runs pd :
  peer_well_formed pd = true ->
  exists issue, peer_has_issue pd = Returned issue
    /\ exists st inq outq,
         peer_summary pd
         = Returned (PyDict [("peerState", st); ("inMsgQueue", inq); ("outMsgQueue", outq)])
         /\ py_getitem pd (PyStr "peerState") = Returned st.
Proof.
  unfold peer_well_formed, peer_has_issue, peer_summary.
  destruct pd as [| | | | |d]; try discriminate. cbn [py_getitem].
  destruct (dict_get d "peerState") as [st|]; [|discriminate].
  destruct (dict_get d "inMsgQueue") as [inq|]; [|discriminate].
  destruct (dict_get d "outMsgQueue") as [outq|]; [|discriminate].
  intros _. cbn [obind].
  destruct (py_ne st (PyStr "Established")); [eauto 10|].
  destruct (py_ne inq (PyInt 0)); eauto 10.
Qed.

Lemma dict_entries_keys (P : pyval -> bool) (d : dict) :
  forallb (fun entry => P (snd entry)) d = true ->
  forall k, In k (dict_keys d) -> exists v, dict_get d k = Some v /\ P v = true.
Proof.
  intros Hall k Hk. destruct (dict_get_key d k Hk) as [v Hv].
  exists v. split; [exact Hv|].
  rewrite forallb_forall in Hall. exact (Hall (k, v) (dict_get_In d k v Hv)).
Qed.

Lemma dict_get_is_key {A} (d : list (string * A)) k v :
  dict_get d k = Some v -> In k (dict_keys d).
Proof.
  intros H. apply dict_get_In in H. unfold dict_keys.
  change k with (fst (k, v)). apply in_map, H.
Qed.

Lemma check_peers_established peers vrf keys : forall state_issue,
  (forall k, In k keys ->
     exists pd, dict_get peers k = Some pd /\ peer_established pd = true) ->
  check_peers (PyDict peers) vrf keys state_issue = Returned state_issue.
Proof.
  induction keys as [|k keys IH]; intros si Hall; [reflexivity|].
  cbn [check_peers py_getitem].
  destruct (Hall k (or_introl eq_refl)) as (pd & -> & Hpd). cbn [obind].
  rewrite (peer_established_no_issue pd Hpd). cbn [obind].
  apply IH. intros k' Hk'. apply Hall. right. exact Hk'.
Qed.

Section Target.

(** One peer of one VRF, and the summary the test stores for it. *)
Variables (vrf0 peer0 : string) (summary0 : pyval).

Lemma check_peers_records peers vrf keys : forall state_issue,
  (forall k, In k keys ->
     exists pd, dict_get peers k = Some pd /\ peer_well_formed pd = true) ->
  (vrf = vrf0 -> forall pd, dict_get peers peer0 = Some pd ->
     peer_summary pd = Returned summary0) ->
  exists state_issue',
    check_peers (PyDict peers) vrf keys state_issue = Returned state_issue'
    /\ (has_issue state_issue vrf0 peer0 summary0 ->
        has_issue state_issue' vrf0 peer0 summary0)
    /\ (vrf = vrf0 -> In peer0 keys ->
        (exists pd, dict_get peers peer0 = Some pd /\ peer_has_issue pd = Returned true) ->
        has_issue state_issue' vrf0 peer0 summary0).
Proof.
  induction keys as [|k keys IH]; intros si Hwf Hdet.
  - exists si. cbn. repeat split; [auto|]. intros _ [].
  - cbn [check_peers py_getitem].
    destruct (Hwf k (or_introl eq_refl)) as (pd & Hk & Hpd). rewrite Hk. cbn [obind].
    destruct (peer_well_formed_runs pd Hpd)
      as (issue & Hissue & st & inq & outq & Hsum & _).
    rewrite Hissue. cbn [obind].
    assert (Hwf' : forall k', In k' keys ->
              exists pd, dict_get peers k' = Some pd /\ peer_well_formed pd = true)
      by (intros k' Hk'; apply Hwf; right; exact Hk').
    destruct issue.
    + rewrite Hsum. cbn [obind].
      set (summary := PyDict [("peerState", st); ("inMsgQueue", inq); ("outMsgQueue", outq)]) in *.
      destruct (IH (record_issue si vrf k summary) Hwf' Hdet) as (si' & Hrun & Hkeep & Hrec).
      exists si'. split; [exact Hrun|]. split.
      * intros Hsi. apply Hkeep. apply record_issue_other; [exact Hsi|].
        intros -> ->. specialize (Hdet eq_refl pd Hk). congruence.
      * intros Hv [->|Hin] Hex.
        -- apply Hkeep. subst vrf. specialize (Hdet eq_refl pd Hk).
           replace summary0 with summary by congruence. apply record_issue_here.
        -- apply Hrec; assumption.
    + destruct (IH si Hwf' Hdet) as (si' & Hrun & Hkeep & Hrec).
      exists si'. split; [exact Hrun|]. split; [exact Hkeep|].
      intros Hv [->|Hin] (pd' & Hpd' & Hissue').
      * rewrite Hk in Hpd'. injection Hpd' as <-. congruence.
      * apply Hrec; eauto.
Qed.

End Target.

Lemma peers_of_getitem vrf_data peers :
  peers_of vrf_data = Some peers ->
  py_getitem vrf_data (PyStr "peers") = Returned (PyDict peers).
Proof.
  unfold peers_of. destruct vrf_data as [| | | | |d]; try discriminate.
  cbn [py_getitem]. destruct (dict_get d "peers") as [[| | | | |p]|]; try discriminate.
  intros [= ->]. reflexivity.
Qed.

Lemma check_vrfs_established bgp_vrfs keys : forall state_issue,
  (forall k, In k keys ->
     exists vrf_data peers,
       dict_get bgp_vrfs k = Some vrf_data /\ peers_of vrf_data = Some peers
       /\ forallb (fun peer => peer_established (snd peer)) peers = true) ->
  check_vrfs (PyDict bgp_vrfs) keys state_issue = Returned state_issue.
Proof.
  induction keys as [|k keys IH]; intros si Hall; [reflexivity|].
  cbn [check_vrfs py_getitem].
  destruct (Hall k (or_introl eq_refl)) as (vd & peers & -> & Hpeers & Hest).
  cbn [obind]. rewrite (peers_of_getitem vd peers Hpeers). cbn [obind iter_keys].
  rewrite check_peers_established by (apply dict_entries_keys; exact Hest).
  cbn [obind]. apply IH. intros k' Hk'. apply Hall. right. exact Hk'.
Qed.

Lemma check_vrfs_records bgp_vrfs vrf0 peer0 summary0 vrf_data0 peers0 peer_data0 keys :
  dict_get bgp_vrfs vrf0 = Some vrf_data0 ->
  peers_of vrf_data0 = Some peers0 ->
  dict_get peers0 peer0 = Some peer_data0 ->
  peer_has_issue peer_data0 = Returned true ->
  peer_summary peer_data0 = Returned summary0 ->
  (forall k, In k keys ->
     exists vrf_data peers,
       dict_get bgp_vrfs k = Some vrf_data /\ peers_of vrf_data = Some peers
       /\ forallb (fun peer => peer_well_formed (snd peer)) peers = true) ->
  forall state_issue,
  exists state_issue',
    check_vrfs (PyDict bgp_vrfs) keys state_issue = Returned state_issue'
    /\ (has_issue state_issue vrf0 peer0 summary0 ->
        has_issue state_issue' vrf0 peer0 summary0)
    /\ (In vrf0 keys -> has_issue state_issue' vrf0 peer0 summary0).
Proof.
  intros Hvrf Hpeers Hpeer Hissue Hsummary.
  induction keys as [|k keys IH]; intros Hwf si.
  - exists si. cbn. repeat split; [auto|]. intros [].
  - cbn [check_vrfs py_getitem].
    destruct (Hwf k (or_introl eq_refl)) as (vd & peers & Hk & Hp & Hall).
    rewrite Hk. cbn [obind]. rewrite (peers_of_getitem vd peers Hp).
    cbn [obind iter_keys].
    assert (Hdet : k = vrf0 -> forall pd, dict_get peers peer0 = Some pd ->
                     peer_summary pd = Returned summary0).
    { intros -> pd Hpd. rewrite Hvrf in Hk. injection Hk as <-.
      rewrite Hpeers in Hp. injection Hp as <-. congruence. }
    destruct (check_peers_records vrf0 peer0 summary0 peers k (dict_keys peers) si
                (dict_entries_keys _ _ Hall) Hdet) as (si1 & Hrun1 & Hkeep1 & Hrec1).
    rewrite Hrun1. cbn [obind].
    destruct (IH (fun k' Hk' => Hwf k' (or_intror Hk')) si1) as (si' & Hrun & Hkeep & Hrec).
    exists si'. split; [exact Hrun|]. split; [auto|].
    intros [->|Hin]; [|auto].
    apply Hkeep, Hrec1; [reflexivity| |].
    + rewrite Hvrf in Hk. injection Hk as <-.
      rewrite Hpeers in Hp. injection Hp as <-.
      exact (dict_get_is_key _ _ _ Hpeer).
    + rewrite Hvrf in Hk. injection Hk as <-.
      rewrite Hpeers in Hp. injection Hp as <-. eauto.
Qed.

Lemma all_peers_keys (P : pyval -> bool) bgp_vrfs :
  all_peers P bgp_vrfs = true ->
  forall k, In k (dict_keys bgp_vrfs) ->
    exists vrf_data peers,
      dict_get bgp_vrfs k = Some vrf_data /\ peers_of vrf_data = Some peers
      /\ forallb (fun peer => P (snd peer)) peers = true.
Proof.
  intros Hall k Hk. destruct (dict_get_key bgp_vrfs k Hk) as [vd Hvd].
  unfold all_peers in Hall. rewrite forallb_forall in Hall.
  specialize (Hall (k, vd) (dict_get_In _ _ _ Hvd)). cbn in Hall.
  destruct (peers_of vd) as [peers|] eqn:Hp; [|discriminate].
  exists vd, peers. auto.
Qed.

Lemma has_issue_truthy state_issue vrf peer summary :
  has_issue state_issue vrf peer summary -> py_truthy (PyDict state_issue) = true.
Proof.
  intros (d & Hd & _). destruct state_issue; [discriminate|reflexivity].
Qed.

Section Verdict.

Variable py_str : pyval -> string.

(** C6: on the collected output of the command, a fresh result becomes
    [success] when every peer of every VRF is established with empty
    queues.  When the output is well formed and some peer of some VRF
    is in state Idle, it becomes [failure] with one message: the
    rendering of a dict that holds, under the name of the VRF and then
    the name of the peer, the state and queues of that peer. *)
Theorem VerifyBGPIPv4UnicastState_verdict (c : AntaCommand)
    (others : list AntaCommand) (command_output bgp_vrfs : dict) :
  output c = PyDict command_output ->
  dict_get command_output "vrfs" = Some (PyDict bgp_vrfs) ->
  let self := {| instance_commands := c :: others; test_result := new_TestResult |} in
  (all_peers peer_established bgp_vrfs = true ->
   VerifyBGPIPv4UnicastState_test py_str self
   = Returned {| result := success; messages := [] |})
  /\ (forall vrf vrf_data peers peer peer_data,
        all_peers peer_well_formed bgp_vrfs = true ->
        dict_get bgp_vrfs vrf = Some vrf_data ->
        peers_of vrf_data = Some peers ->
        dict_get peers peer = Some (PyDict peer_data) ->
        dict_get peer_data "peerState" = Some (PyStr "Idle") ->
        exists state_issue inq outq,
          VerifyBGPIPv4UnicastState_test py_str self
          = Returned {| result := failure;
                        messages := ["Some IPv4 Unicast BGP Peer are not up: "
                                       +:+ py_str (PyDict state_issue)] |}
          /\ has_issue state_issue vrf peer
               (PyDict [("peerState", PyStr "Idle"); ("inMsgQueue", inq);
                        ("outMsgQueue", outq)])
          /\ dict_get peer_data "inMsgQueue" = Some inq
          /\ dict_get peer_data "outMsgQueue" = Some outq).
Proof.
  intros Hout Hvrfs self.
  unfold VerifyBGPIPv4UnicastState_test, self. cbn [instance_commands test_result].
  unfold json_output. rewrite Hout. cbn [obind py_getitem]. rewrite Hvrfs.
  cbn [obind]. unfold _check_bgp_vrfs. cbn [iter_keys obind].
  split.
  - intros Hall.
    rewrite check_vrfs_established by (apply all_peers_keys; exact Hall).
    reflexivity.
  - intros vrf vrf_data peers peer peer_data Hwf Hvrf Hpeers Hpeer Hidle.
    assert (Hpd : peer_well_formed (PyDict peer_data) = true).
    { destruct (all_peers_keys _ _ Hwf vrf (dict_get_is_key _ _ _ Hvrf))
        as (vd & ps & Hvd & Hps & Hall).
      rewrite Hvrf in Hvd. injection Hvd as <-.
      rewrite Hpeers in Hps. injection Hps as <-.
      rewrite forallb_forall in Hall.
      exact (Hall (peer, PyDict peer_data) (dict_get_In _ _ _ Hpeer)). }
    cbn [peer_well_formed] in Hpd. rewrite Hidle in Hpd.
    destruct (dict_get peer_data "inMsgQueue") as [inq|] eqn:Hinq; [|discriminate].
    destruct (dict_get peer_data "outMsgQueue") as [outq|] eqn:Houtq; [|discriminate].
    set (summary := PyDict [("peerState", PyStr "Idle"); ("inMsgQueue", inq);
                            ("outMsgQueue", outq)]).
    destruct (check_vrfs_records bgp_vrfs vrf peer summary vrf_data peers
                (PyDict peer_data) (dict_keys bgp_vrfs) Hvrf Hpeers Hpeer)
      with (state_issue := @nil (string * pyval))
      as (si & Hrun & _ & Hrec).
    + unfold peer_has_issue. cbn [py_getitem]. rewrite Hidle. reflexivity.
    + unfold peer_summary. cbn [py_getitem]. rewrite Hidle, Hinq, Houtq. reflexivity.
    + apply all_peers_keys. exact Hwf.
    + specialize (Hrec (dict_get_is_key _ _ _ Hvrf)).
      exists si, inq, outq. rewrite Hrun. cbn [obind].
      rewrite (has_issue_truthy _ _ _ _ Hrec). cbn [negb].
      repeat split; assumption.
Qed.

End Verdict.

Lemma VerifyBGPIPv4UnicastState_verdict_witness :
  let bgp_vrfs :=
    [("default",
      PyDict [("routerId", PyStr "10.0.0.1");
              ("peers", PyDict [("10.1.0.1", bgp_peer "Idle" 0 0)])])] in
  (all_peers peer_established bgp_vrfs = true ->
   VerifyBGPIPv4UnicastState_test render_str (bgp_test "Idle")
   = Returned {| result := success; messages := [] |})
  /\ (forall vrf vrf_data peers peer peer_data,
        all_peers peer_well_formed bgp_vrfs = true ->
        dict_get bgp_vrfs vrf = Some vrf_data ->
        peers_of vrf_data = Some peers ->
        dict_get peers peer = Some (PyDict peer_data) ->
        dict_get peer_data "peerState" = Some (PyStr "Idle") ->
        exists state_issue inq outq,
          VerifyBGPIPv4UnicastState_test render_str (bgp_test "Idle")
          = Returned {| result := failure;
                        messages := ["Some IPv4 Unicast BGP Peer are not up: "
                                       +:+ render_str (PyDict state_issue)] |}
          /\ has_issue state_issue vrf peer
               (PyDict [("peerState", PyStr "Idle"); ("inMsgQueue", inq);
                        ("outMsgQueue", outq)])
          /\ dict_get peer_data "inMsgQueue" = Some inq
          /\ dict_get peer_data "outMsgQueue" = Some outq).
Proof.
  apply (VerifyBGPIPv4UnicastState_verdict render_str (bgp_command "Idle") []
           (bgp_summary "Idle")).
  - reflexivity.
  - reflexivity.
Defined.

(** Scenario A: one peer, established, queues empty. *)
Example scenario_established :
  VerifyBGPIPv4UnicastState_test render_str (bgp_test "Established")
  = Returned {| result := success; messages := [] |}.
Proof. reflexivity. Qed.

(** Scenario B: the peer is idle; the message names VRF and peer. *)
Example scenario_idle :
  VerifyBGPIPv4UnicastState_test render_str (bgp_test "Idle")
  = Returned
      {| result := failure;
         messages :=
           ["Some IPv4 Unicast BGP Peer are not up: {'default': {'10.1.0.1': {'peerState': 'Idle', 'inMsgQueue': 0, 'outMsgQueue': 0}}}"] |}.
Proof. vm_compute. reflexivity. Qed.

(** Output without the [vrfs] key makes the body raise. *)
Example scenario_malformed :
  VerifyBGPIPv4UnicastState_test render_str
    {| instance_commands :=
         [set_output (PyDict [("errors", PyList [])]) (bgp_command "Idle")];
       test_result := new_TestResult |}
  = Raised (KeyError (PyStr "vrfs")).
Proof. reflexivity. Qed.

(** ** Failed logs *)

Section FailedLogs.

Variable py_str : pyval -> string.

Lemma failed_logs_loop_spec actual_output items : forall failed_logs,
  failed_logs_loop py_str items actual_output failed_logs
  = (failed_logs ++ omap (item_log py_str actual_output) items)%list.
Proof.
  induction items as [|[element expected_data] items IH]; intros acc.
  - cbn. rewrite app_nil_r. reflexivity.
  - cbn [failed_logs_loop omap list_omap]. unfold item_log at 1. cbn [fst snd].
    unfold py_ne.
    destruct (py_eq (py_get actual_output element) expected_data); cbn [negb].
    + apply IH.
    + destruct (is_none (py_get actual_output element)).
      * rewrite IH, <- app_assoc. reflexivity.
      * rewrite IH, <- app_assoc. reflexivity.
Qed.

Lemma concat_nonempty (x : string) (l : list string) :
  x <> "" -> String.concat "" (x :: l) <> "".
Proof.
  intros Hx. destruct x as [|a x]; [congruence|].
  destruct l; cbn; discriminate.
Qed.

Lemma item_log_nonempty actual_output item m :
  item_log py_str actual_output item = Some m -> m <> "".
Proof.
  unfold item_log, not_found_log, instead_log.
  destruct (py_eq _ _); [discriminate|].
  destruct (is_none _); intros [= <-]; discriminate.
Qed.

Lemma omap_item_log_nil actual_output items :
  omap (item_log py_str actual_output) items = [] <->
  Forall (fun item => py_eq (py_get actual_output (fst item)) (snd item) = true) items.
Proof.
  induction items as [|item items IH]; cbn [omap list_omap].
  - split; [constructor|reflexivity].
  - destruct (item_log py_str actual_output item) as [m|] eqn:Hm.
    + split; [discriminate|].
      intros H. inversion H as [|? ? Heq _]; subst. exfalso.
      unfold item_log in Hm. rewrite Heq in Hm. discriminate.
    + rewrite IH. split.
      * intros H. constructor; [|exact H].
        unfold item_log in Hm. destruct (py_eq _ _); [reflexivity|].
        destruct (is_none _); discriminate.
      * intros H. inversion H; assumption.
Qed.

Lemma dict_get_NoDup {A} (d : list (string * A)) k v :
  NoDup (dict_keys d) -> In (k, v) d -> dict_get d k = Some v.
Proof.
  unfold dict_keys. induction d as [|[k' v'] d IH]; cbn; [tauto|].
  intros Hnd [[= -> ->]|Hin].
  - rewrite String.eqb_refl. reflexivity.
  - apply NoDup_cons in Hnd as [Hnotin Hnd].
    destruct (String.eqb k' k) eqn:E.
    + apply String.eqb_eq in E. subst k'. exfalso. apply Hnotin.
      apply list_elem_of_In. change k with (fst (k, v)). apply in_map, Hin.
    + apply IH; assumption.
Qed.

(** C9: [get_failed_logs] joins, in the order of [expected_output], one
    message per item whose value differs from [actual_output.get] of
    its key: the not-found message when that is [None], the instead
    message otherwise.  The result is empty exactly when no item
    differs; it reads [actual_output] at the keys of [expected_output]
    only; and an expected [None] under a key that is absent differs
    from nothing. *)
Theorem get_failed_logs_spec (expected_output actual_output : dict) :
  get_failed_logs py_str expected_output actual_output
  = String.concat "" (omap (item_log py_str actual_output) expected_output)
  /\ (get_failed_logs py_str expected_output actual_output = "" <->
      Forall (fun item => py_eq (py_get actual_output (fst item)) (snd item) = true)
        expected_output)
  /\ (NoDup (dict_keys expected_output) ->
      (get_failed_logs py_str expected_output actual_output = "" <->
       forall k, In k (dict_keys expected_output) ->
         py_eq (py_get actual_output k) (py_get expected_output k) = true))
  /\ (forall other : dict,
        (forall k, In k (dict_keys expected_output) ->
           py_get other k = py_get actual_output k) ->
        get_failed_logs py_str expected_output other
        = get_failed_logs py_str expected_output actual_output)
  /\ (forall k, dict_get actual_output k = None ->
        item_log py_str actual_output (k, PyNone) = None).
Proof.
  assert (Hspec : forall e a, get_failed_logs py_str e a
                    = String.concat "" (omap (item_log py_str a) e)).
  { intros e a. unfold get_failed_logs. rewrite failed_logs_loop_spec. reflexivity. }
  assert (Hempty : get_failed_logs py_str expected_output actual_output = "" <->
      Forall (fun item => py_eq (py_get actual_output (fst item)) (snd item) = true)
        expected_output).
  { rewrite Hspec, <- omap_item_log_nil.
    destruct (omap (item_log py_str actual_output) expected_output) as [|m l] eqn:Hl.
    - split; reflexivity.
    - split; [|discriminate]. intros Hc. exfalso.
      assert (Hm : exists item, item_log py_str actual_output item = Some m).
      { assert (Hin : m ∈ omap (item_log py_str actual_output) expected_output)
          by (rewrite Hl; left).
        apply list_elem_of_omap in Hin as (item & _ & Hitem). eauto. }
      destruct Hm as (item & Hitem).
      exact (concat_nonempty m l (item_log_nonempty _ _ _ Hitem) Hc). }
  split; [apply Hspec|]. split; [exact Hempty|]. split; [|split].
  - intros Hnd. rewrite Hempty, Forall_forall. split.
    + intros H k Hk. destruct (dict_get_key expected_output k Hk) as [v Hv].
      unfold py_get at 2. rewrite Hv.
      exact (H (k, v) (proj2 (list_elem_of_In _ _) (dict_get_In _ _ _ Hv))).
    + intros H [k v] Hin. apply list_elem_of_In in Hin. cbn [fst snd].
      specialize (H k). unfold py_get at 2 in H.
      rewrite (dict_get_NoDup _ _ _ Hnd Hin) in H. apply H.
      unfold dict_keys. change k with (fst (k, v)). apply in_map, Hin.
  - intros other Hsame. rewrite !Hspec. f_equal.
    assert (Hgen : forall items,
              (forall k, In k (dict_keys items) -> py_get other k = py_get actual_output k) ->
              omap (item_log py_str other) items = omap (item_log py_str actual_output) items).
    { induction items as [|[k v] items IH]; intros Hk; [reflexivity|].
      cbn [omap list_omap].
      assert (Hitem : item_log py_str other (k, v) = item_log py_str actual_output (k, v)).
      { unfold item_log. cbn [fst snd]. rewrite (Hk k (or_introl eq_refl)). reflexivity. }
      rewrite Hitem.
      rewrite IH by (intros k' Hk'; apply Hk; right; exact Hk'). reflexivity. }
    apply Hgen, Hsame.
  - intros k Hk. unfold item_log, py_get. cbn [fst snd]. rewrite Hk. reflexivity.
Qed.

End FailedLogs.

Example get_failed_logs_no_difference : get_failed_logs render_str alice alice = "".
Proof. reflexivity. Qed.

Example get_failed_logs_different_data :
  get_failed_logs render_str alice bob
  = newline +:+ "Expected `1` as the id, but found `2` instead."
    +:+ newline +:+ "Expected `Alice` as the name, but found `Bob` instead."
    +:+ newline +:+ "Expected `30` as the age, but found `35` instead."
    +:+ newline +:+ "Expected `alice@example.com` as the email, but found `bob@example.com` instead.".
Proof. vm_compute. reflexivity. Qed.

Example get_failed_logs_empty_actual :
  get_failed_logs render_str alice []
  = newline +:+ "Expected `1` as the id, but it was not found in the actual output."
    +:+ newline +:+ "Expected `Alice` as the name, but it was not found in the actual output."
    +:+ newline +:+ "Expected `30` as the age, but it was not found in the actual output."
    +:+ newline +:+ "Expected `alice@example.com` as the email, but it was not found in the actual output.".
Proof. vm_compute. reflexivity. Qed.

Example get_failed_logs_different_name :
  get_failed_logs render_str
    [("id", PyInt 4); ("name", PyStr "Jon"); ("age", PyInt 25);
     ("email", PyStr "Jon@example.com")]
    [("id", PyInt 4); ("name", PyStr "Rob"); ("age", PyInt 25);
     ("email", PyStr "Jon@example.com")]
  = newline +:+ "Expected `Jon` as the name, but found `Rob` instead.".
Proof. vm_compute. reflexivity. Qed.

(** ** Division *)

Lemma pow2_to_pos (k : Z) :
  (0 < k)%Z -> Z.pos (2 ^ Z.to_pos k) = (2 ^ k)%Z.
Proof.
  intros Hk. rewrite Pos2Z.inj_pow, Z2Pos.id by exact Hk. reflexivity.
Qed.

Lemma int_of_exact (s : bool) (m p : Z) :
  (0 < p)%Z -> (m mod p = 0)%Z ->
  (cond_Zopp s m * 1 = cond_Zopp s (m / p) * p)%Z.
Proof.
  intros Hp Hmod. apply Z.div_exact in Hmod; [|lia].
  destruct s; cbn; rewrite Hmod at 1; lia.
Qed.

(** [is_integer] holds exactly of the integral floats, and [int] of an
    integral float is its value. *)
Lemma float_is_integer_spec (x : float) :
  (float_is_integer x = true <-> float_integral x)
  /\ (float_is_integer x = true ->
      exists z q, float_to_int x = Returned z
                  /\ float_value x = Some q /\ Qeq q (inject_Z z)).
Proof.
  unfold float_integral.
  destruct x as [s|s| |s m e]; cbn [float_is_integer float_value float_to_int].
  - split.
    + split; [|reflexivity]. intros _. exists 0%Q, 0%Z. split; reflexivity.
    + intros _. exists 0%Z, 0%Q. repeat split; reflexivity.
  - split; [|discriminate]. split; [discriminate|].
    intros (q & z & H & _). discriminate.
  - split; [|discriminate]. split; [discriminate|].
    intros (q & z & H & _). discriminate.
  - destruct (0 <=? e)%Z eqn:He.
    + split.
      * split; [|reflexivity]. intros _. eexists _, _. split; reflexivity.
      * intros _. eexists _, _. repeat split; reflexivity.
    + apply Z.leb_gt in He.
      assert (Hk : (0 < - e)%Z) by lia.
      assert (Hpow : (0 < 2 ^ (- e))%Z) by (apply Z.pow_pos_nonneg; lia).
      split.
      * split.
        -- intros Hmod. apply Z.eqb_eq in Hmod.
           exists (cond_Zopp s (Z.pos m) # 2 ^ Z.to_pos (- e))%Q,
                  (cond_Zopp s (Z.pos m / 2 ^ (- e))).
           split; [reflexivity|].
           unfold Qeq. cbn [Qnum Qden inject_Z]. rewrite pow2_to_pos by exact Hk.
           apply (int_of_exact s (Z.pos m) (2 ^ (- e))); [lia|exact Hmod].
        -- intros (q & z & [= <-] & Heq).
           unfold Qeq in Heq. cbn [Qnum Qden inject_Z] in Heq.
           rewrite pow2_to_pos in Heq by exact Hk. rewrite Z.mul_1_r in Heq.
           apply Z.eqb_eq. apply Z.mod_divide; [lia|].
           destruct s; cbn in Heq.
           ++ exists (- z)%Z. lia.
           ++ exists z. lia.
      * intros Hmod. apply Z.eqb_eq in Hmod.
        exists (cond_Zopp s (Z.pos m / 2 ^ (- e))),
               (cond_Zopp s (Z.pos m) # 2 ^ Z.to_pos (- e))%Q.
        repeat split.
        unfold Qeq. cbn [Qnum Qden inject_Z]. rewrite pow2_to_pos by exact Hk.
        apply (int_of_exact s (Z.pos m) (2 ^ (- e))); [lia|exact Hmod].
Qed.

(** C10: on floats, with a divisor other than zero, [custom_division]
    returns without raising; the quotient is the binary64 quotient of
    the operands; when the quotient is integral the result is the
    [int] of the same value, and otherwise it is the quotient itself.
    A zero divisor raises [ZeroDivisionError]. *)
Theorem custom_division_spec (numerator denominator : float) :
  (float_is_zero denominator = true ->
   custom_division numerator denominator
   = Raised (ZeroDivisionError "float division by zero"))
  /\ (float_is_zero denominator = false ->
      let quotient := SFdiv prec emax numerator denominator in
      float_truediv numerator denominator = Returned quotient
      /\ (float_integral quotient ->
          exists z q,
            custom_division numerator denominator = Returned (NumInt z)
            /\ float_value quotient = Some q /\ Qeq q (inject_Z z))
      /\ (~ float_integral quotient ->
          custom_division numerator denominator = Returned (NumFloat quotient))
      /\ ((exists z, custom_division numerator denominator = Returned (NumInt z))
          <-> float_integral quotient)).
Proof.
  unfold custom_division, float_truediv. split.
  - intros ->. reflexivity.
  - intros ->. cbn zeta. cbn [obind].
    set (quotient := SFdiv prec emax numerator denominator).
    destruct (float_is_integer_spec quotient) as [Hiff Hint].
    split; [reflexivity|].
    destruct (float_is_integer quotient) eqn:Hq.
    + destruct (Hint eq_refl) as (z & q & Hz & Hv & Heq). rewrite Hz. cbn [obind].
      split; [intros _; eauto|].
      split; [intros Hn; exfalso; apply Hn, Hiff; reflexivity|].
      split; [intros _; apply Hiff; reflexivity|eauto].
    + assert (Hn : ~ float_integral quotient).
      { intros H. apply Hiff in H. discriminate. }
      split; [intros H; contradiction|].
      split; [reflexivity|].
      split; [intros (z & H); discriminate|intros H; contradiction].
Qed.

Example custom_division_integral :
  custom_division (float_of_Z 6) (float_of_Z 3) = Returned (NumInt 2).
Proof. vm_compute. reflexivity. Qed.

Example custom_division_fraction :
  custom_division (float_of_Z 7) (float_of_Z 2)
  = Returned (NumFloat (S754_finite false 7881299347898368 (-51))).
Proof. vm_compute. reflexivity. Qed.

Example custom_division_by_zero :
  custom_division (float_of_Z 1) (S754_zero true)
  = Raised (ZeroDivisionError "float division by zero").
Proof. reflexivity. Qed.

(** The quotient is the rounded one: [(2^52 + 1) * 2^52] is not a
    multiple of 3, and its binary64 quotient by 3 is an integer. *)
Example custom_division_large :
  custom_division (S754_finite false 4503599627370497 52) (float_of_Z 3)
  = Returned (NumInt 6760803201217225351148928499712).
Proof. vm_compute. reflexivity. Qed.

(** * Further properties *)

(** ** Construction of devices *)

(** X1: the tags of a device always include ["all"]; the tags given are
    kept in their order, ["all"] is appended only when it is missing,
    and building the tags again from the result changes nothing. *)
Theorem init_tags_default_tag (given : option (list string)) :
  let tags := match given with Some t => t | None => [] end in
  In DEFAULT_TAG (init_tags given)
  /\ (In DEFAULT_TAG tags -> init_tags given = tags)
  /\ (~ In DEFAULT_TAG tags -> init_tags given = (tags ++ [DEFAULT_TAG])%list)
  /\ init_tags (Some (init_tags given)) = init_tags given.
Proof.
  cbn zeta. unfold init_tags.
  set (tags := match given with Some t => t | None => [] end).
  destruct (existsb (String.eqb DEFAULT_TAG) tags) eqn:E.
  - assert (Hin : In DEFAULT_TAG tags).
    { apply existsb_exists in E as (x & Hx & Heq).
      apply String.eqb_eq in Heq. subst x. exact Hx. }
    rewrite E. repeat split; auto. intros Hn. contradiction.
  - assert (Hnot : ~ In DEFAULT_TAG tags).
    { intros Hin.
      assert (existsb (String.eqb DEFAULT_TAG) tags = true)
        by (apply existsb_exists; exists DEFAULT_TAG; split;
            [exact Hin|apply String.eqb_refl]).
      congruence. }
    assert (E' : existsb (String.eqb DEFAULT_TAG) (tags ++ [DEFAULT_TAG]) = true).
    { rewrite existsb_app. cbn. rewrite orb_true_r. reflexivity. }
    rewrite E'. repeat split; auto.
    + apply in_or_app. right. left. reflexivity.
    + intros Hin. contradiction.
Qed.

(** ** One collection *)

(** X2: a call to [collect] on a command makes exactly one call to the
    session, whatever the answer, and none for a reference that holds no
    command.  The request is a batch of two entries: [enable], carrying
    the enable password when the device has one, then the command,
    carrying its revision unless that is [None] or 0. *)
Theorem collect_single_request (net : eapi) (s : state) (l : loc) :
  trace (snd (collect net l s))
  = (trace s ++ match store s !! l with
                | Some c => [Cli (request_of (dev s) c)]
                | None => []
                end)%list
  /\ (forall c, exists enable entry,
         request_of (dev s) c = CliCommands [enable; entry] (ofmt c) (version c)
         /\ cmd enable = "enable"
         /\ input enable = enable_password (dev s)
         /\ cmd_revision enable = None
         /\ cmd entry = command c
         /\ input entry = None
         /\ cmd_revision entry
            = match revision c with
              | Some r => if Z.eqb r 0 then None else Some r
              | None => None
              end).
Proof.
  split.
  - destruct (store s !! l) as [c|] eqn:Hc.
    + destruct (collect_spec net l s c Hc) as (s' & Hrun & _ & Htr & _).
      rewrite Hrun. exact Htr.
    + rewrite (collect_dangling net l s Hc). cbn. rewrite app_nil_r. reflexivity.
  - intros c. unfold request_of, enable_cmd, revision_cmd. cbn [app].
    eexists _, _. split; [reflexivity|].
    destruct (enable_password (dev s)); destruct (revision c) as [r|];
      try destruct (Z.eqb r 0); cbn; repeat split; reflexivity.
Qed.

(** X3: [collect] never clears a slot.  A failure recorded earlier stays
    on the command when a later collection is answered, next to the new
    output; an output recorded earlier stays when a later collection
    fails, next to the new failure; the identity is kept. *)
Theorem collect_keeps_earlier_slots (net : eapi) (s : state) (l : loc)
    (c : AntaCommand) :
  store s !! l = Some c ->
  exists c',
    store (snd (collect net l s)) !! l = Some c'
    /\ identity c' = identity c
    /\ (failed_set c = true -> failed_set c' = true)
    /\ (forall response v,
          cli net (trace s) (request_of (dev s) c) = Returned response ->
          select_output (ofmt c) response = Returned v ->
          output c' = v /\ failed c' = failed c)
    /\ (forall e,
          obind (cli net (trace s) (request_of (dev s) c)) (select_output (ofmt c))
          = Raised e ->
          failed c' = Some e /\ output c' = output c).
Proof.
  intros Hc.
  destruct (collect_spec net l s c Hc) as (s' & Hrun & _ & _ & Hl & _).
  rewrite Hrun. cbn [snd]. eexists. split; [exact Hl|].
  split; [apply collected_identity|].
  unfold collected, failed_set.
  destruct (cli net (trace s) (request_of (dev s) c)) as [response|e]; cbn [obind].
  - destruct (select_output (ofmt c) response) as [v|e] eqn:Hsel; cbn.
    + split; [auto|]. split; [|discriminate].
      intros r w [= <-] Hw. rewrite Hsel in Hw. injection Hw as <-. auto.
    + split; [auto|]. split.
      * intros r w [= <-] Hw. congruence.
      * intros e' [= <-]. auto.
  - cbn. split; [auto|]. split; [discriminate|]. intros e' [= <-]. auto.
Qed.

Lemma collect_keeps_earlier_slots_witness :
  exists c',
    store (snd (collect answering_session 0 failed_once)) !! 0%nat = Some c'
    /\ identity c' = identity (set_failed (ConnectError "timed out") show_version)
    /\ (failed_set (set_failed (ConnectError "timed out") show_version) = true ->
        failed_set c' = true)
    /\ (forall response v,
          cli answering_session (trace failed_once)
            (request_of (dev failed_once)
               (set_failed (ConnectError "timed out") show_version))
          = Returned response ->
          select_output (ofmt (set_failed (ConnectError "timed out") show_version))
            response = Returned v ->
          output c' = v
          /\ failed c' = failed (set_failed (ConnectError "timed out") show_version))
    /\ (forall e,
          obind (cli answering_session (trace failed_once)
                   (request_of (dev failed_once)
                      (set_failed (ConnectError "timed out") show_version)))
            (select_output (ofmt (set_failed (ConnectError "timed out") show_version)))
          = Raised e ->
          failed c' = Some e
          /\ output c' = output (set_failed (ConnectError "timed out") show_version)).
Proof.
  apply (collect_keeps_earlier_slots answering_session failed_once 0%nat
           (set_failed (ConnectError "timed out") show_version)).
  reflexivity.
Defined.

(** A command that failed once and is collected again with success ends
    with both slots set. *)
Example collect_again_after_failure :
  (output_set <$> store (snd (collect answering_session 0 failed_once)) !! 0%nat)
  = Some true
  /\ (failed_set <$> store (snd (collect answering_session 0 failed_once)) !! 0%nat)
     = Some true.
Proof. split; vm_compute; reflexivity. Qed.

(** ** Batches, continued *)

(** X4: [collect_commands] writes to the commands of the batch only: an
    empty batch changes nothing and calls nothing, and a command that is
    not in the batch is left as it was. *)
Theorem collect_commands_frame (net : eapi) (s : state) (commands : list loc) :
  collect_commands net [] s = (Returned tt, s)
  /\ (forall l, ~ In l commands ->
        store (snd (collect_commands net commands s)) !! l = store s !! l).
Proof.
  split; [reflexivity|].
  intros l Hl. apply collect_commands_untouched, Hl.
Qed.


Lemma collect_commands_outage net commands :
  (forall h r, exists e, cli net h r = Raised e) ->
  forall s,
  exists s',
    collect_commands net commands s = (Returned tt, s')
    /\ (forall l c, store s !! l = Some c ->
          exists c', store s' !! l = Some c'
            /\ output c' = output c
            /\ (failed_set c = true \/ In l commands -> failed_set c' = true)).
Proof.
  intros Hdown. induction commands as [|l0 rest IH]; intros s.
  - exists s. split; [reflexivity|]. intros l c Hc. exists c.
    repeat split; [exact Hc|]. intros [H|[]]. exact H.
  - cbn [collect_commands]. unfold bind.
    destruct (store s !! l0) as [c0|] eqn:Hl0.
    + destruct (collect_spec net l0 s c0 Hl0) as (s1 & Hrun & _ & _ & Hat & Hother).
      rewrite Hrun. destruct (IH s1) as (s' & Hrun' & Hall). exists s'.
      split; [exact Hrun'|]. intros l c Hc.
      destruct (Hdown (trace s) (request_of (dev s) c0)) as [e He].
      rewrite He in Hat. unfold collected in Hat. cbn [obind] in Hat.
      destruct (decide (l = l0)) as [->|Hne].
      * rewrite Hl0 in Hc. injection Hc as <-.
        destruct (Hall l0 (set_failed e c0) Hat) as (c' & Hc' & Hout & Hfail).
        exists c'. split; [exact Hc'|]. split; [exact Hout|].
        intros _. apply Hfail. left. reflexivity.
      * rewrite <- (Hother l Hne) in Hc.
        destruct (Hall l c Hc) as (c' & Hc' & Hout & Hfail).
        exists c'. split; [exact Hc'|]. split; [exact Hout|].
        intros [H|[H|H]]; [auto|congruence|auto].
    + rewrite (collect_dangling net l0 s Hl0).
      destruct (IH s) as (s' & Hrun' & Hall). exists s'.
      split; [exact Hrun'|]. intros l c Hc.
      destruct (Hall l c Hc) as (c' & Hc' & Hout & Hfail).
      exists c'. split; [exact Hc'|]. split; [exact Hout|].
      intros [H|[H|H]]; [auto|congruence|auto].
Qed.

(** X6: when every call to the session raises, [collect_commands] still
    returns, and every command of the batch ends with a failure
    recorded and its output as it was. *)
Theorem collect_commands_device_down (net : eapi) (s : state)
    (commands : list loc) :
  (forall h r, exists e, cli net h r = Raised e) ->
  fst (collect_commands net commands s) = Returned tt
  /\ (forall l c, In l commands -> store s !! l = Some c ->
        exists c',
          store (snd (collect_commands net commands s)) !! l = Some c'
          /\ failed_set c' = true
          /\ output c' = output c).
Proof.
  intros Hdown.
  destruct (collect_commands_outage net commands Hdown s) as (s' & Hrun & Hall).
  rewrite Hrun. split; [reflexivity|].
  intros l c Hin Hc. destruct (Hall l c Hc) as (c' & Hc' & Hout & Hfail).
  exists c'. auto.
Qed.

Lemma collect_commands_device_down_witness :
  fst (collect_commands failing_session [0%nat; 1%nat] two_commands) = Returned tt
  /\ (forall l c, In l [0%nat; 1%nat] -> store two_commands !! l = Some c ->
        exists c',
          store (snd (collect_commands failing_session [0%nat; 1%nat] two_commands)) !! l
          = Some c'
          /\ failed_set c' = true
          /\ output c' = output c).
Proof.
  apply (collect_commands_device_down failing_session two_commands [0%nat; 1%nat]).
  intros h r. eexists. reflexivity.
Defined.

(** ** Refresh, continued *)

Lemma refresh_refreshed net s :
  let online := check_connection net (trace s) in
  let answer := cli net (trace s ++ [CheckConnection])%list (CliCommand COMMAND) in
  refresh net s
  = (fst (refreshed online answer (dev s)),
     {| dev := snd (refreshed online answer (dev s));
        store := store s;
        trace := (trace s ++ CheckConnection ::
                    (if online then [Cli (CliCommand COMMAND)] else []))%list |}).
Proof.
  cbn zeta. unfold refresh, refreshed, establish. unfold_m.
  destruct (check_connection net (trace s)) eqn:Honline;
    cbn [trace with_trace with_dev dev store]; [|reflexivity].
  rewrite <- app_assoc. cbn [app].
  destruct (cli net (trace s ++ [CheckConnection]) (CliCommand COMMAND))
    as [response|e].
  - destruct (py_contains HW_MODEL_KEY response) as [[|]|e]; cbn; try reflexivity.
    destruct (py_getitem response (PyStr HW_MODEL_KEY)); reflexivity.
  - destruct e; reflexivity.
Qed.

(** X7: [refresh] writes [is_online], [hw_model] and [established] and
    nothing else: the commands, and the name, tags, passwords and
    connection parameters of the device are as before the call, also
    when it raises. *)
Theorem refresh_frame (net : eapi) (s : state) :
  let self := dev s in
  let self' := dev (snd (refresh net s)) in
  store (snd (refresh net s)) = store s
  /\ name self' = name self
  /\ tags self' = tags self
  /\ enable_password self' = enable_password self
  /\ session self' = session self
  /\ ssh_opts self' = ssh_opts self.
Proof.
  cbn zeta. rewrite refresh_refreshed. cbn [snd dev store].
  split; [reflexivity|]. unfold refreshed, establish.
  destruct (check_connection net (trace s)); [|repeat split].
  destruct (cli net _ _) as [response|e].
  - destruct (py_contains HW_MODEL_KEY response) as [[|]|e];
      [destruct (py_getitem response (PyStr HW_MODEL_KEY))| |]; repeat split.
  - destruct e; repeat split.
Qed.

(** X8: on a reachable device whose identity command fails with a
    handled exception, or whose answer holds no model, [refresh]
    returns, keeps the model of an earlier refresh and derives
    [established] from it: a device stays established on a stale model
    although the command failed.  An answer that holds a model replaces
    it. *)
Theorem refresh_model (net : eapi) (s : state) :
  check_connection net (trace s) = true ->
  let answer := cli net (trace s ++ [CheckConnection])%list (CliCommand COMMAND) in
  refresh_handles answer = true ->
  let self' := dev (snd (refresh net s)) in
  fst (refresh net s) = Returned tt
  /\ hw_model self' = refreshed_model (hw_model (dev s)) answer
  /\ established self' = py_truthy (hw_model self')
  /\ (forall e, answer = Raised e -> hw_model self' = hw_model (dev s))
  /\ (forall d, answer = Returned (PyDict d) -> dict_get d HW_MODEL_KEY = None ->
        hw_model self' = hw_model (dev s))
  /\ (forall d model, answer = Returned (PyDict d) ->
        dict_get d HW_MODEL_KEY = Some model -> hw_model self' = model).
Proof.
  intros Honline answer Hh. cbn zeta. rewrite refresh_refreshed. cbn [fst snd dev].
  fold answer. rewrite Honline. unfold refreshed, refreshed_model, establish.
  destruct answer as [response|e].
  - destruct response as [| | | | |d]; try discriminate. cbn [py_contains py_getitem].
    destruct (dict_get d HW_MODEL_KEY) as [model|] eqn:Hd; cbn.
    + repeat split; try discriminate.
      * intros d' [= <-] Hn. congruence.
      * intros d' m [= <-] Hm. congruence.
    + repeat split; try discriminate. intros d' m [= <-] Hm. congruence.
  - destruct e; try discriminate; cbn; repeat split; discriminate.
Qed.

Lemma refresh_model_witness :
  let answer :=
    cli rejecting_session (trace refreshed_once ++ [CheckConnection])%list
      (CliCommand COMMAND) in
  let self' := dev (snd (refresh rejecting_session refreshed_once)) in
  fst (refresh rejecting_session refreshed_once) = Returned tt
  /\ hw_model self' = refreshed_model (hw_model (dev refreshed_once)) answer
  /\ established self' = py_truthy (hw_model self')
  /\ (forall e, answer = Raised e -> hw_model self' = hw_model (dev refreshed_once))
  /\ (forall d, answer = Returned (PyDict d) -> dict_get d HW_MODEL_KEY = None ->
        hw_model self' = hw_model (dev refreshed_once))
  /\ (forall d model, answer = Returned (PyDict d) ->
        dict_get d HW_MODEL_KEY = Some model -> hw_model self' = model).
Proof.
  apply (refresh_model rejecting_session refreshed_once); reflexivity.
Defined.

(** The identity command is rejected and the device stays established. *)
Example refresh_established_on_stale_model :
  fst (refresh rejecting_session refreshed_once) = Returned tt
  /\ hw_model (dev (snd (refresh rejecting_session refreshed_once)))
     = PyStr "DCS-7280SR3-48YC8"
  /\ established (dev (snd (refresh rejecting_session refreshed_once))) = true.
Proof. repeat split. Qed.

Lemma refreshed_twice online answer d :
  refreshed online answer (snd (refreshed online answer d))
  = refreshed online answer d.
Proof.
  unfold refreshed, establish.
  destruct online; [|destruct d; reflexivity].
  destruct answer as [response|e].
  - destruct (py_contains HW_MODEL_KEY response) as [[|]|e];
      try (destruct d; reflexivity).
    destruct (py_getitem response (PyStr HW_MODEL_KEY));
      destruct d; reflexivity.
  - destruct e; destruct d; reflexivity.
Qed.

(** X9: against a session whose answers do not change, [refresh] is
    idempotent: a second call returns or raises as the first did and
    leaves the device as the first left it. *)
Theorem refresh_idempotent (net : eapi) (s : state) :
  stable net ->
  fst (refresh net (snd (refresh net s))) = fst (refresh net s)
  /\ dev (snd (refresh net (snd (refresh net s)))) = dev (snd (refresh net s)).
Proof.
  intros Hstable.
  rewrite (refresh_refreshed net (snd (refresh net s))).
  rewrite (refresh_refreshed net s). cbn [fst snd dev trace].
  set (online := check_connection net (trace s)).
  set (answer := cli net (trace s ++ [CheckConnection])%list (CliCommand COMMAND)).
  destruct (Hstable (trace s ++ CheckConnection ::
                       (if online then [Cli (CliCommand COMMAND)] else []))%list
              (trace s)) as [Hc _].
  rewrite Hc. fold online.
  destruct (Hstable ((trace s ++ CheckConnection ::
                        (if online then [Cli (CliCommand COMMAND)] else []))
                       ++ [CheckConnection])%list
              (trace s ++ [CheckConnection])%list) as [_ Ha].
  rewrite Ha. fold answer.
  rewrite refreshed_twice. split; reflexivity.
Qed.

Lemma refresh_idempotent_witness :
  fst (refresh answering_session (snd (refresh answering_session one_command)))
  = fst (refresh answering_session one_command)
  /\ dev (snd (refresh answering_session (snd (refresh answering_session one_command))))
     = dev (snd (refresh answering_session one_command)).
Proof.
  apply (refresh_idempotent answering_session one_command).
  intros h h'. split; reflexivity.
Defined.

(** ** File copy *)

(** X10: [copy] opens the connection before anything else and leaves the
    block whenever it entered it.  It transfers at most once, and only
    for the directions ["from"] and ["to"]: every source on the device
    and the destination local for ["from"], the reverse for ["to"].
    With any other direction it logs, transfers nothing and returns
    without raising.  It raises only what [connect] or [scp] raised. *)
Theorem copy_transfers_once (net : ssh) (self : AsyncEOSDevice)
    (sources : list string) (destination direction : string) :
  let run := copy net self sources destination direction in
  let connect := ssh_connect net (ssh_host (ssh_opts self)) (ssh_port (ssh_opts self)) in
  head (snd run) = Some (SshConnect (ssh_host (ssh_opts self)) (ssh_port (ssh_opts self)))
  /\ (length (List.filter is_scp (snd run)) <= 1)%nat
  /\ (forall src dst, In (SshScp src dst) (snd run) ->
        (direction = "from" /\ src = map RemotePath sources
         /\ dst = LocalPath destination)
        \/ (direction = "to" /\ src = map LocalPath sources
            /\ dst = RemotePath destination))
  /\ (connect = Returned tt -> last (snd run) = Some SshExit)
  /\ (connect = Returned tt -> direction <> "from" -> direction <> "to" ->
      fst run = Returned tt /\ List.filter is_scp (snd run) = [])
  /\ (forall e, fst run = Raised e ->
        connect = Raised e \/ exists src dst, ssh_scp net src dst = Raised e).
Proof.
  cbn zeta. unfold copy.
  destruct (ssh_connect net (ssh_host (ssh_opts self)) (ssh_port (ssh_opts self)))
    as [[]|e0].
  - assert (Hlogs : forall (f : string -> string) src dst,
              List.filter is_scp
                ([SshConnect (ssh_host (ssh_opts self)) (ssh_port (ssh_opts self))]
                   ++ map (fun file => SshInfo (f file)) sources
                   ++ [SshScp src dst; SshExit])
              = [SshScp src dst]).
    { intros f src dst. cbn. induction sources as [|x xs IH]; cbn; auto. }
    assert (Hin : forall (f : string -> string) src dst src' dst',
              In (SshScp src' dst')
                ([SshConnect (ssh_host (ssh_opts self)) (ssh_port (ssh_opts self))]
                   ++ map (fun file => SshInfo (f file)) sources
                   ++ [SshScp src dst; SshExit]) ->
              src' = src /\ dst' = dst).
    { intros f src dst src' dst' H. cbn [app In] in H.
      destruct H as [H|H]; [discriminate|].
      apply in_app_or in H. cbn [In] in H.
      destruct H as [H|[H|[H|[]]]]; try discriminate.
      - apply in_map_iff in H as (x & Hx & _). discriminate.
      - injection H as <- <-. auto. }
    assert (Hlast : forall (f : string -> string) src dst,
              last ([SshConnect (ssh_host (ssh_opts self)) (ssh_port (ssh_opts self))]
                      ++ map (fun file => SshInfo (f file)) sources
                      ++ [SshScp src dst; SshExit])
              = Some SshExit).
    { intros f src dst. rewrite !app_assoc.
      change [SshScp src dst; SshExit] with ([SshScp src dst] ++ [SshExit])%list.
      rewrite app_assoc. apply last_snoc. }
    destruct (String.eqb direction "from") eqn:Efrom;
      [|destruct (String.eqb direction "to") eqn:Eto]; cbn [fst snd].
    + apply String.eqb_eq in Efrom.
      split; [reflexivity|]. split; [rewrite Hlogs; cbn; lia|].
      split; [intros src dst H; apply Hin in H as [-> ->]; left; auto|].
      split; [intros _; apply Hlast|].
      split; [intros _ Hn; contradiction|].
      intros e He. right. eauto.
    + apply String.eqb_eq in Eto.
      split; [reflexivity|]. split; [rewrite Hlogs; cbn; lia|].
      split; [intros src dst H; apply Hin in H as [-> ->]; right; auto|].
      split; [intros _; apply Hlast|].
      split; [intros _ _ Hn; contradiction|].
      intros e He. right. eauto.
    + split; [reflexivity|]. split; [cbn; lia|].
      split; [intros src dst [H|[H|[H|[]]]]; discriminate|].
      split; [reflexivity|].
      split; [intros _ _ _; split; reflexivity|].
      intros e He. discriminate.
  - cbn [fst snd]. split; [reflexivity|]. split; [cbn; lia|].
    split; [intros src dst [H|[]]; discriminate|].
    split; [discriminate|]. split; [discriminate|].
    intros e [= <-]. left. reflexivity.
Qed.

Example copy_from_device :
  copy working_ssh leaf1 ["/mnt/flash/a.log"; "/mnt/flash/b.log"] "/tmp" "from"
  = (Returned tt,
     [SshConnect "leaf1.example.net" (Some 22);
      SshInfo "Copying '/mnt/flash/a.log' from device leaf1 to '/tmp' locally";
      SshInfo "Copying '/mnt/flash/b.log' from device leaf1 to '/tmp' locally";
      SshScp [RemotePath "/mnt/flash/a.log"; RemotePath "/mnt/flash/b.log"]
        (LocalPath "/tmp");
      SshExit]).
Proof. vm_compute. reflexivity. Qed.

(** ** The BGP state tests, continued *)

Lemma distinct_NoDup (keys : list string) : distinct keys = true -> NoDup keys.
Proof.
  induction keys as [|k rest IH]; cbn; [constructor|].
  rewrite andb_true_iff, negb_true_iff. intros [Hk Hrest].
  constructor; [|auto].
  intros Hin. apply list_elem_of_In in Hin.
  assert (existsb (String.eqb k) rest = true)
    by (apply existsb_exists; exists k; split; [exact Hin|apply String.eqb_refl]).
  congruence.
Qed.

Lemma distinct_dict_get {A} (d : list (string * A)) k v :
  distinct (dict_keys d) = true -> In (k, v) d -> dict_get d k = Some v.
Proof. intros H. apply dict_get_NoDup, distinct_NoDup, H. Qed.

Lemma forallb_false {A} (f : A -> bool) (l : list A) :
  forallb f l = false -> exists x, In x l /\ f x = false.
Proof.
  induction l as [|x l IH]; cbn; [discriminate|].
  destruct (f x) eqn:E; cbn.
  - intros H. destruct (IH H) as (y & Hy & Hf). eauto.
  - intros _. eauto.
Qed.

Lemma peer_issue_when_not_established pd :
  peer_well_formed pd = true -> peer_established pd = false ->
  peer_has_issue pd = Returned true
  /\ exists summary, peer_summary pd = Returned summary.
Proof.
  unfold peer_well_formed, peer_established, peer_has_issue, peer_summary.
  destruct pd as [| | | | |d]; try discriminate. cbn [py_getitem].
  destruct (dict_get d "peerState") as [st|]; [|discriminate].
  destruct (dict_get d "inMsgQueue") as [inq|]; [|discriminate].
  destruct (dict_get d "outMsgQueue") as [outq|]; [|discriminate].
  intros _ H. cbn [obind]. unfold py_ne. split; [|eauto].
  destruct (py_eq st (PyStr "Established")); [|reflexivity].
  destruct (py_eq inq (PyInt 0)); [|reflexivity].
  destruct (py_eq outq (PyInt 0)); [discriminate|reflexivity].
Qed.

Lemma well_formed_peers vrf_data peers :
  well_formed vrf_data = true -> peers_of vrf_data = Some peers ->
  distinct (dict_keys peers) = true.
Proof.
  unfold peers_of. destruct vrf_data as [| | | | |d]; try discriminate.
  cbn [well_formed]. rewrite andb_true_iff. intros [_ Hvalues].
  destruct (dict_get d "peers") as [[| | | | |p]|] eqn:Hp; try discriminate.
  intros [= <-]. rewrite forallb_forall in Hvalues.
  specialize (Hvalues _ (dict_get_In _ _ _ Hp)). cbn [snd well_formed] in Hvalues.
  apply andb_true_iff in Hvalues as [H _]. exact H.
Qed.

Section StateVerdict.

Variable py_str : pyval -> string.

(** X11: on well-formed output whose objects have distinct keys, the
    IPv4 state test ends in [success] exactly when every peer of every
    VRF is established with both queues empty; otherwise it ends in
    [failure] with one message rendering a non-empty dict, so a peer
    that is established with messages queued fails the test.  The IPv6
    test has the same verdict and the same message, IPv4 wording
    included. *)
Theorem bgp_state_test_decides (c : AntaCommand) (others : list AntaCommand)
    (command_output bgp_vrfs : dict) :
  output c = PyDict command_output ->
  dict_get command_output "vrfs" = Some (PyDict bgp_vrfs) ->
  well_formed (PyDict bgp_vrfs) = true ->
  all_peers peer_well_formed bgp_vrfs = true ->
  let self := {| instance_commands := c :: others; test_result := new_TestResult |} in
  (VerifyBGPIPv4UnicastState_test py_str self
   = Returned {| result := success; messages := [] |}
   <-> all_peers peer_established bgp_vrfs = true)
  /\ (all_peers peer_established bgp_vrfs = false ->
      exists state_issue,
        state_issue <> []
        /\ VerifyBGPIPv4UnicastState_test py_str self
           = Returned {| result := failure;
                         messages := ["Some IPv4 Unicast BGP Peer are not up: "
                                        +:+ py_str (PyDict state_issue)] |})
  /\ VerifyBGPIPv6UnicastState_test py_str self
     = VerifyBGPIPv4UnicastState_test py_str self.
Proof.
  intros Hout Hvrfs Hwf Hpw self.
  assert (Hfail : all_peers peer_established bgp_vrfs = false ->
      exists state_issue,
        state_issue <> []
        /\ VerifyBGPIPv4UnicastState_test py_str self
           = Returned {| result := failure;
                         messages := ["Some IPv4 Unicast BGP Peer are not up: "
                                        +:+ py_str (PyDict state_issue)] |}).
  { intros Hne. unfold all_peers in Hne.
    apply forallb_false in Hne as ([vrf vrf_data] & Hin & Hbad). cbn [snd] in Hbad.
    cbn [well_formed] in Hwf. apply andb_true_iff in Hwf as [Hkeys Hvalues].
    pose proof (distinct_dict_get _ _ _ Hkeys Hin) as Hvrf.
    destruct (all_peers_keys _ _ Hpw vrf (dict_get_is_key _ _ _ Hvrf))
      as (vd & peers & Hvd & Hpeers & Hall).
    rewrite Hvrf in Hvd. injection Hvd as <-. rewrite Hpeers in Hbad.
    apply forallb_false in Hbad as ([peer peer_data] & Hinp & Hp). cbn [snd] in Hp.
    rewrite forallb_forall in Hvalues.
    pose proof (Hvalues _ Hin) as Hwfv. cbn [snd] in Hwfv.
    pose proof (distinct_dict_get _ _ _ (well_formed_peers _ _ Hwfv Hpeers) Hinp)
      as Hpeer.
    rewrite forallb_forall in Hall. pose proof (Hall _ Hinp) as Hpwf. cbn [snd] in Hpwf.
    destruct (peer_issue_when_not_established _ Hpwf Hp) as (Hissue & summary & Hsum).
    destruct (check_vrfs_records bgp_vrfs vrf peer summary vrf_data peers peer_data
                (dict_keys bgp_vrfs) Hvrf Hpeers Hpeer Hissue Hsum
                (all_peers_keys _ _ Hpw) [])
      as (si & Hsi & _ & Hrec).
    specialize (Hrec (dict_get_is_key _ _ _ Hvrf)).
    exists si. split.
    - intros ->. destruct Hrec as (d & Hd & _). discriminate.
    - unfold VerifyBGPIPv4UnicastState_test, self.
      cbn [instance_commands test_result]. unfold json_output. rewrite Hout.
      cbn [obind py_getitem]. rewrite Hvrfs. cbn [obind]. unfold _check_bgp_vrfs.
      cbn [iter_keys obind]. rewrite Hsi. cbn [obind].
      rewrite (has_issue_truthy _ _ _ _ Hrec). reflexivity. }
  split; [|split; [exact Hfail|reflexivity]].
  split.
  - intros Hsuccess. destruct (all_peers peer_established bgp_vrfs) eqn:E; [reflexivity|].
    destruct (Hfail eq_refl) as (si & _ & Hsi). rewrite Hsi in Hsuccess. discriminate.
  - intros Hall. unfold VerifyBGPIPv4UnicastState_test, self.
    cbn [instance_commands test_result]. unfold json_output. rewrite Hout.
    cbn [obind py_getitem]. rewrite Hvrfs. cbn [obind]. unfold _check_bgp_vrfs.
    cbn [iter_keys obind].
    rewrite check_vrfs_established by (apply all_peers_keys; exact Hall).
    reflexivity.
Qed.

End StateVerdict.

Lemma bgp_state_test_decides_witness :
  let bgp_vrfs :=
    [("default",
      PyDict [("peers",
               PyDict [("10.1.0.1", bgp_peer "Established" 0 0);
                       ("10.1.0.2", bgp_peer "Idle" 0 0);
                       ("10.1.0.3", bgp_peer "Established" 0 4)])])] in
  let self := {| instance_commands := [three_peers_command];
                 test_result := new_TestResult |} in
  (VerifyBGPIPv4UnicastState_test render_str self
   = Returned {| result := success; messages := [] |}
   <-> all_peers peer_established bgp_vrfs = true)
  /\ (all_peers peer_established bgp_vrfs = false ->
      exists state_issue,
        state_issue <> []
        /\ VerifyBGPIPv4UnicastState_test render_str self
           = Returned {| result := failure;
                         messages := ["Some IPv4 Unicast BGP Peer are not up: "
                                        +:+ render_str (PyDict state_issue)] |})
  /\ VerifyBGPIPv6UnicastState_test render_str self
     = VerifyBGPIPv4UnicastState_test render_str self.
Proof.
  apply (bgp_state_test_decides render_str three_peers_command []
           [("vrfs", three_peers)]); reflexivity.
Defined.

(** Both faulty peers are reported, the established one is not. *)
Example three_peers_issues :
  _check_bgp_vrfs three_peers
  = Returned
      [("default",
        PyDict [("10.1.0.2",
                 PyDict [("peerState", PyStr "Idle"); ("inMsgQueue", PyInt 0);
                         ("outMsgQueue", PyInt 0)]);
                ("10.1.0.3",
                 PyDict [("peerState", PyStr "Established"); ("inMsgQueue", PyInt 0);
                         ("outMsgQueue", PyInt 4)])])].
Proof. reflexivity. Qed.

(** *** What is reported *)

Lemma dict_set_nonempty {A} (d : list (string * A)) k v : dict_set d k v <> [].
Proof. destruct d as [|[k' v'] d]; cbn; [|destruct (String.eqb k' k)]; discriminate. Qed.

Lemma record_issue_inv si vrf peer summary v p summary' :
  has_issue (record_issue si vrf peer summary) v p summary' ->
  (v = vrf /\ p = peer /\ summary' = summary) \/ has_issue si v p summary'.
Proof.
  unfold has_issue, record_issue. intros (d & Hd & Hp).
  destruct (String.eqb v vrf) eqn:Ev.
  - apply String.eqb_eq in Ev. subst v. rewrite dict_get_set_eq in Hd.
    injection Hd as <-.
    destruct (String.eqb p peer) eqn:Ep.
    + apply String.eqb_eq in Ep. subst p. rewrite dict_get_set_eq in Hp.
      injection Hp as <-. left. auto.
    + apply String.eqb_neq in Ep. rewrite dict_get_set_ne in Hp by exact Ep.
      right. destruct (dict_get si vrf) as [[| | | | |d0]|]; try discriminate.
      exists d0. auto.
  - apply String.eqb_neq in Ev. rewrite dict_get_set_ne in Hd by exact Ev.
    right. eauto.
Qed.

Lemma record_issue_truly bgp_vrfs si vrf peer peer_data summary :
  reported_truly bgp_vrfs si ->
  peer_at bgp_vrfs vrf peer = Returned peer_data ->
  peer_has_issue peer_data = Returned true ->
  peer_summary peer_data = Returned summary ->
  reported_truly bgp_vrfs (record_issue si vrf peer summary).
Proof.
  intros [Hreal Hvalues] Hat Hissue Hsum. split.
  - intros v p S H. apply record_issue_inv in H as [(-> & -> & ->)|H]; eauto.
  - intros v x. unfold record_issue.
    destruct (String.eqb v vrf) eqn:Ev.
    + apply String.eqb_eq in Ev. subst v. rewrite dict_get_set_eq.
      intros [= <-]. eexists. split; [reflexivity|apply dict_set_nonempty].
    + apply String.eqb_neq in Ev. rewrite dict_get_set_ne by exact Ev. apply Hvalues.
Qed.

Lemma check_peers_truly bgp_vrfs vrf vrf_data peers keys :
  py_getitem bgp_vrfs (PyStr vrf) = Returned vrf_data ->
  py_getitem vrf_data (PyStr "peers") = Returned peers ->
  forall si si',
    reported_truly bgp_vrfs si ->
    check_peers peers vrf keys si = Returned si' ->
    reported_truly bgp_vrfs si'.
Proof.
  intros Hvrf Hpeers. induction keys as [|peer rest IH]; intros si si' Hsi Hrun.
  - injection Hrun as <-. exact Hsi.
  - cbn [check_peers] in Hrun.
    destruct (py_getitem peers (PyStr peer)) as [pd|e] eqn:Hpd; [|discriminate].
    cbn [obind] in Hrun.
    destruct (peer_has_issue pd) as [[|]|e] eqn:Hissue; try discriminate;
      cbn [obind] in Hrun.
    + destruct (peer_summary pd) as [summary|e] eqn:Hsum; [|discriminate].
      cbn [obind] in Hrun. apply (IH _ _ (record_issue_truly _ _ _ _ pd _ Hsi
        ltac:(unfold peer_at; rewrite Hvrf; cbn [obind]; rewrite Hpeers; exact Hpd)
        Hissue Hsum) Hrun).
    + exact (IH _ _ Hsi Hrun).
Qed.

Lemma check_vrfs_truly bgp_vrfs keys :
  forall si si',
    reported_truly bgp_vrfs si ->
    check_vrfs bgp_vrfs keys si = Returned si' ->
    reported_truly bgp_vrfs si'.
Proof.
  induction keys as [|vrf rest IH]; intros si si' Hsi Hrun.
  - injection Hrun as <-. exact Hsi.
  - cbn [check_vrfs] in Hrun.
    destruct (py_getitem bgp_vrfs (PyStr vrf)) as [vd|e] eqn:Hvd; [|discriminate].
    cbn [obind] in Hrun.
    destruct (py_getitem vd (PyStr "peers")) as [peers|e] eqn:Hp; [|discriminate].
    cbn [obind] in Hrun.
    destruct (iter_keys peers) as [peer_keys|e]; [|discriminate].
    cbn [obind] in Hrun.
    destruct (check_peers peers vrf peer_keys si) as [si1|e] eqn:H1; [|discriminate].
    cbn [obind] in Hrun.
    exact (IH _ _ (check_peers_truly _ _ _ _ _ Hvd Hp _ _ Hsi H1) Hrun).
Qed.

(** X12: whatever [_check_bgp_vrfs] returns holds only peers that have
    an issue, each under its VRF and its name with its own state and
    queue lengths; an established peer with empty queues is never
    reported, and a VRF is named only when one of its peers is. *)
Theorem check_bgp_vrfs_reports_truly (bgp_vrfs : pyval) (state_issue : dict) :
  _check_bgp_vrfs bgp_vrfs = Returned state_issue ->
  (forall vrf peer summary,
      has_issue state_issue vrf peer summary ->
      exists peer_data,
        peer_at bgp_vrfs vrf peer = Returned peer_data
        /\ peer_has_issue peer_data = Returned true
        /\ peer_established peer_data = false
        /\ peer_summary peer_data = Returned summary)
  /\ (forall vrf, In vrf (dict_keys state_issue) ->
        exists peer summary, has_issue state_issue vrf peer summary).
Proof.
  unfold _check_bgp_vrfs. intros Hrun.
  destruct (iter_keys bgp_vrfs) as [keys|e]; [|discriminate]. cbn [obind] in Hrun.
  assert (Hempty : reported_truly bgp_vrfs []).
  { split; [intros v p S (d & Hd & _)|intros v x Hx]; discriminate. }
  destruct (check_vrfs_truly bgp_vrfs keys _ _ Hempty Hrun) as [Hreal Hvalues].
  split.
  - intros vrf peer summary H. destruct (Hreal _ _ _ H) as (pd & Hat & Hissue & Hsum).
    exists pd. repeat split; try assumption.
    destruct (peer_established pd) eqn:E; [|reflexivity].
    rewrite (peer_established_no_issue pd E) in Hissue. discriminate.
  - intros vrf Hin. destruct (dict_get_key _ _ Hin) as [x Hx].
    destruct (Hvalues _ _ Hx) as (d & -> & Hd).
    destruct d as [|[peer summary] d]; [contradiction|].
    exists peer, summary, ((peer, summary) :: d). split; [exact Hx|].
    cbn. rewrite String.eqb_refl. reflexivity.
Qed.

Lemma check_bgp_vrfs_reports_truly_witness :
  let state_issue :=
    [("default",
      PyDict [("10.1.0.2",
               PyDict [("peerState", PyStr "Idle"); ("inMsgQueue", PyInt 0);
                       ("outMsgQueue", PyInt 0)]);
              ("10.1.0.3",
               PyDict [("peerState", PyStr "Established"); ("inMsgQueue", PyInt 0);
                       ("outMsgQueue", PyInt 4)])])] in
  (forall vrf peer summary,
      has_issue state_issue vrf peer summary ->
      exists peer_data,
        peer_at three_peers vrf peer = Returned peer_data
        /\ peer_has_issue peer_data = Returned true
        /\ peer_established peer_data = false
        /\ peer_summary peer_data = Returned summary)
  /\ (forall vrf, In vrf (dict_keys state_issue) ->
        exists peer summary, has_issue state_issue vrf peer summary).
Proof. apply (check_bgp_vrfs_reports_truly three_peers). reflexivity. Defined.

(** *** Incomplete output *)




Section Incomplete.

Variable py_str : pyval -> string.


End Incomplete.


Example incomplete_peer_key_error :
  _check_bgp_vrfs
    (PyDict [("default", PyDict [("peers", PyDict [("10.1.0.1", incomplete_peer)])])])
  = Raised (KeyError (PyStr "outMsgQueue")).
Proof. reflexivity. Qed.

(** ** The EVPN and RTC tests *)

Lemma non_established_peers_names peers :
  all_have_state peers = true ->
  non_established_peers peers = Returned (not_established_names peers).
Proof.
  unfold all_have_state, not_established_names.
  induction peers as [|[peer pd] rest IH]; [reflexivity|].
  cbn [forallb snd]. rewrite andb_true_iff. intros [Hpd Hrest].
  cbn [non_established_peers List.filter snd].
  destruct pd as [| | | | |d]; try discriminate. cbn [peer_state] in *.
  cbn [py_getitem]. destruct (dict_get d "peerState") as [st|]; [|discriminate].
  cbn [obind]. rewrite (IH Hrest). cbn [obind].
  destruct (py_ne st (PyStr "Established")); reflexivity.
Qed.


Section Families.

Variable py_str : pyval -> string.

(** X14: on a summary whose default VRF lists peers that each hold a
    state, the EVPN and RTC state tests end in [success] exactly when
    every state is Established, and otherwise in [failure] with one
    message listing the other peers in the order of the summary.  The
    message queues play no part. *)
Theorem evpn_rtc_state_verdict (family : string) (self : AntaTest) (peers : dict) :
  default_vrf_peers self = Returned (PyDict peers) ->
  all_have_state peers = true ->
  test_result self = new_TestResult ->
  (peers_state_test py_str family self
   = Returned {| result := success; messages := [] |}
   <-> not_established_names peers = [])
  /\ (not_established_names peers <> [] ->
      peers_state_test py_str family self
      = Returned {| result := failure;
                    messages := [not_established_log py_str family
                                   (not_established_names peers)] |})
  /\ VerifyBGPEVPNState_test py_str = peers_state_test py_str "EVPN"
  /\ VerifyBGPRTCState_test py_str = peers_state_test py_str "RTC".
Proof.
  intros Hpeers Hstate Hfresh.
  unfold peers_state_test. rewrite Hpeers. cbn [obind py_items].
  rewrite (non_established_peers_names peers Hstate). cbn [obind]. rewrite Hfresh.
  destruct (not_established_names peers) as [|name names].
  - repeat split; try reflexivity. intros H. contradiction.
  - repeat split; try reflexivity; discriminate.
Qed.


(** X16: the EVPN and RTC count tests end in [success] exactly when
    every peer of the default VRF is established and their number is the
    expected one.  Otherwise they end in [failure] with one or two
    messages: the count when it differs, then the peers that are not
    established when there are some. *)
Theorem evpn_rtc_count_verdict (family : string) (number : Z) (self : AntaTest)
    (peers : dict) :
  default_vrf_peers self = Returned (PyDict peers) ->
  all_have_state peers = true ->
  test_result self = new_TestResult ->
  let names := not_established_names peers in
  let actual := Z.of_nat (length peers) in
  let expected_messages :=
    ((if Z.eqb actual number then [] else [count_log py_str family number actual])
       ++ match names with
          | [] => []
          | _ => [not_established_log py_str family names]
          end)%list in
  (peers_count_test py_str family number self
   = Returned {| result := success; messages := [] |}
   <-> names = [] /\ actual = number)
  /\ (names <> [] \/ actual <> number ->
      peers_count_test py_str family number self
      = Returned {| result := failure; messages := expected_messages |}
      /\ (1 <= length expected_messages <= 2)%nat)
  /\ VerifyBGPEVPNCount_test py_str = peers_count_test py_str "EVPN"
  /\ VerifyBGPRTCCount_test py_str = peers_count_test py_str "RTC".
Proof.
  intros Hpeers Hstate Hfresh. cbn zeta.
  unfold peers_count_test. rewrite Hpeers. cbn [obind py_items].
  rewrite (non_established_peers_names peers Hstate). cbn [obind]. rewrite Hfresh.
  destruct (not_established_names peers) as [|name names];
    destruct (Z.eqb_spec (Z.of_nat (length peers)) number) as [Heq|Hne]; cbn.
  all: (split; [split; [intros H0|intros [H1 H2]]
              |split; [intros [H1|H2]|split; reflexivity]]);
    first [ discriminate | contradiction | congruence | reflexivity
          | (split; [reflexivity|cbn; lia]) | (split; congruence) ].
Qed.

End Families.

Lemma evpn_rtc_state_verdict_witness :
  (peers_state_test render_str "EVPN" (family_test evpn_peers)
   = Returned {| result := success; messages := [] |}
   <-> not_established_names evpn_peers = [])
  /\ (not_established_names evpn_peers <> [] ->
      peers_state_test render_str "EVPN" (family_test evpn_peers)
      = Returned {| result := failure;
                    messages := [not_established_log render_str "EVPN"
                                   (not_established_names evpn_peers)] |})
  /\ VerifyBGPEVPNState_test render_str = peers_state_test render_str "EVPN"
  /\ VerifyBGPRTCState_test render_str = peers_state_test render_str "RTC".
Proof.
  apply (evpn_rtc_state_verdict render_str "EVPN" (family_test evpn_peers) evpn_peers);
    reflexivity.
Defined.


Lemma evpn_rtc_count_verdict_witness :
  let names := not_established_names evpn_peers in
  let actual := Z.of_nat (length evpn_peers) in
  let expected_messages :=
    ((if Z.eqb actual 4 then [] else [count_log render_str "RTC" 4 actual])
       ++ match names with
          | [] => []
          | _ => [not_established_log render_str "RTC" names]
          end)%list in
  (peers_count_test render_str "RTC" 4 (family_test evpn_peers)
   = Returned {| result := success; messages := [] |}
   <-> names = [] /\ actual = 4)
  /\ (names <> [] \/ actual <> 4 ->
      peers_count_test render_str "RTC" 4 (family_test evpn_peers)
      = Returned {| result := failure; messages := expected_messages |}
      /\ (1 <= length expected_messages <= 2)%nat)
  /\ VerifyBGPEVPNCount_test render_str = peers_count_test render_str "EVPN"
  /\ VerifyBGPRTCCount_test render_str = peers_count_test render_str "RTC".
Proof.
  apply (evpn_rtc_count_verdict render_str "RTC" 4 (family_test evpn_peers) evpn_peers);
    reflexivity.
Defined.

(** The idle peer fails the EVPN state test; the peer with messages
    queued does not. *)
Example evpn_state_example :
  VerifyBGPEVPNState_test render_str (family_test evpn_peers)
  = Returned {| result := failure;
                messages := ["The following EVPN peers are not established: ['10.1.0.2']"] |}.
Proof. vm_compute. reflexivity. Qed.

Example rtc_count_example :
  VerifyBGPRTCCount_test render_str 4 (family_test evpn_peers)
  = Returned {| result := failure;
                messages := ["Expecting 4 BGP RTC peers and got 3";
                             "The following RTC peers are not established: ['10.1.0.2']"] |}.
Proof. vm_compute. reflexivity. Qed.

(** ** Failed logs, continued *)

Lemma concat_cons (x : string) (l : list string) :
  String.concat "" (x :: l) = x +:+ String.concat "" l.
Proof.
  destruct l as [|y l]; cbn; [|reflexivity].
  induction x as [|a x IH]; [reflexivity|].
  change (String a x +:+ "") with (String a (x +:+ "")). rewrite <- IH. reflexivity.
Qed.

Lemma append_assoc (a b c : string) : (a +:+ b) +:+ c = a +:+ (b +:+ c).
Proof.
  induction a as [|x a IH]; [reflexivity|].
  change (String x (a +:+ b) +:+ c = String x (a +:+ (b +:+ c))).
  change (String x ((a +:+ b) +:+ c) = String x (a +:+ (b +:+ c))).
  rewrite IH. reflexivity.
Qed.

Lemma concat_app (l1 l2 : list string) :
  String.concat "" (l1 ++ l2) = String.concat "" l1 +:+ String.concat "" l2.
Proof.
  induction l1 as [|x l1 IH]; [reflexivity|].
  cbn [app]. rewrite !concat_cons, IH, append_assoc. reflexivity.
Qed.




Section FailedLogsMore.

Variable py_str : pyval -> string.

(** X17: the log of an expectation put together from two parts is the
    log of the first part followed by the log of the second: every item
    is judged on its own, in order. *)
Theorem get_failed_logs_app (first second actual_output : dict) :
  get_failed_logs py_str (first ++ second) actual_output
  = get_failed_logs py_str first actual_output
    +:+ get_failed_logs py_str second actual_output.
Proof.
  unfold get_failed_logs. rewrite !failed_logs_loop_spec. cbn [app].
  rewrite omap_app. apply concat_app.
Qed.


End FailedLogsMore.


(** ** Division, continued *)

(** X19: [custom_division] raises nothing but [ZeroDivisionError], and
    that only for a zero divisor: infinities and NaN are never handed to
    [int].  A zero numerator gives the integer 0 whatever its sign, an
    infinite numerator over a finite divisor gives the infinity of the
    combined sign as a float, and a NaN operand gives NaN. *)
Theorem custom_division_special_operands :
  (forall x y e, custom_division x y = Raised e ->
     e = ZeroDivisionError "float division by zero" /\ float_is_zero y = true)
  /\ (forall s y, float_is_zero y = false -> y <> S754_nan ->
        custom_division (S754_zero s) y = Returned (NumInt 0))
  /\ (forall s sy m e,
        custom_division (S754_infinity s) (S754_finite sy m e)
        = Returned (NumFloat (S754_infinity (xorb s sy))))
  /\ (forall x y, float_is_zero y = false -> x = S754_nan \/ y = S754_nan ->
        custom_division x y = Returned (NumFloat S754_nan)).
Proof.
  unfold custom_division, float_truediv.
  split; [|split; [|split]].
  - intros x y e. destruct (float_is_zero y); cbn [obind].
    + intros [= <-]. auto.
    + destruct (float_is_integer (SFdiv prec emax x y)) eqn:Hq; [|discriminate].
      destruct (SFdiv prec emax x y) as [s|s| |s m ex]; cbn in *; discriminate.
  - intros s y Hy Hnan. rewrite Hy. cbn [obind].
    destruct y as [sy|sy| |sy m e]; try discriminate; try contradiction; reflexivity.
  - intros s sy m e. reflexivity.
  - intros x y Hy [->| ->]; rewrite Hy; cbn [obind].
    + destruct y; reflexivity.
    + destruct x; reflexivity.
Qed.
